(** * ShikshaMitra (REAP helper): the logic of [app.py]

  A shallow embedding of the three pieces of logic of [app.py]:
  - the College Predictor page (lines 154-194): a pandas filter over the
    cutoff catalog;
  - the credential helpers [register_user] and [login_user] (lines 43-52)
    and the Login page that calls them (lines 121-147);
  - the Submit Issue page (lines 290-309): validate, insert, then mail.

  Python strings are [string]s whose characters are code points below 256.
  A pandas [DataFrame] is stored row by row, each row under its index
  label.  MongoDB documents are finite maps from field names to values. *)

From Stdlib Require Import QArith.
From stdpp Require Import base decidable option list strings pretty gmap sorting.

Local Open Scope string_scope.
Local Open Scope Z_scope.

(** ** Python strings *)

Module Py.

(** [str.isspace] of one character, for the code points below 256:
    U+0009..U+000D, U+001C..U+0020, U+0085 and U+00A0. *)
Definition isspace (a : Ascii.ascii) : bool :=
  let n := Ascii.N_of_ascii a in
  ((9 <=? n) && (n <=? 13) || (28 <=? n) && (n <=? 32)
   || (n =? 133) || (n =? 160))%N.

Fixpoint lstrip (s : string) : string :=
  match s with
  | EmptyString => EmptyString
  | String a s' => if isspace a then lstrip s' else s
  end.

Definition rstrip (s : string) : string :=
  String.rev (lstrip (String.rev s)).

(** [s.strip()] *)
Definition strip (s : string) : string := rstrip (lstrip s).

(** Truth value of a [str]: the empty string is the only falsy one. *)
Definition truthy (s : string) : bool :=
  match s with EmptyString => false | String _ _ => true end.

(** [d.get(k)] on a dict literal, kept as its list of items. *)
Fixpoint dict_get (k : string) (d : list (string * string)) : option string :=
  match d with
  | [] => None
  | (k', v) :: d' => if bool_decide (k = k') then Some v else dict_get k d'
  end.

(** The exceptions met in [app.py]. *)
Inductive exn : Type :=
| KeyError (key : string)
| AttributeError
| PyMongoError (message : string)
| SMTPException (message : string).

(** [str(e)] *)
Definition exn_str (e : exn) : string :=
  match e with
  | KeyError key => "'" ++ key ++ "'"
  | AttributeError => "AttributeError"
  | PyMongoError message => message
  | SMTPException message => message
  end.

(** What a call does: it returns a value or raises. *)
Inductive result (A : Type) : Type :=
| Ret (a : A)
| Raise (e : exn).
Arguments Ret {A} a.
Arguments Raise {A} e.

End Py.

(** ** pandas *)

Module Pandas.

(** A float64: a finite value (every finite double is a rational), an
    infinity, or NaN, which pandas also uses for a missing entry. *)
Inductive float64 : Type :=
| FNum (q : Q)
| FPosInf
| FNegInf
| FNaN.

(** [x >= n] for a float [x] and a Python int [n]; false on NaN. *)
Definition float_ge (x : float64) (n : Z) : bool :=
  match x with
  | FNum q => Qle_bool (inject_Z n) q
  | FPosInf => true
  | FNegInf => false
  | FNaN => false
  end.

(** [isna] of one float. *)
Definition isna (x : float64) : bool :=
  match x with FNaN => true | _ => false end.

(** One entry of a frame read by [pd.read_csv]: a string (object column)
    or a number (numeric column; a missing entry is NaN). *)
Inductive cell : Type :=
| CStr (s : string)
| CNum (x : float64).

(** A frame: the column labels, and the rows in order, each under its
    index label. *)
Record DataFrame : Type := mkDataFrame {
  columns : list string;
  rows : list (nat * list cell)
}.

(** The index of a frame. *)
Definition index (df : DataFrame) : list nat := fst <$> rows df.

(** Position of a column label ([None]: the label is not a column). *)
Definition col_pos (c : string) (df : DataFrame) : option nat :=
  fst <$> list_find (λ l, l = c) (columns df).

(** The entry of a row at a column position; [read_csv] pads a short line
    with missing entries. *)
Definition cell_at (r : list cell) (i : nat) : cell :=
  default (CNum FNaN) (r !! i).

(** [df[mask]]: the rows whose mask entry is [True], labels kept. *)
Fixpoint loc {A : Type} (mask : list bool) (l : list A) : list A :=
  match mask, l with
  | b :: mask', x :: l' => if b then x :: loc mask' l' else loc mask' l'
  | _, _ => []
  end.

(** A table as [pd.read_csv] finds it in the file: header and lines. *)
Record csv : Type := mkCsv {
  header : list string;
  body : list (list cell)
}.

(** [pd.read_csv]: the frame gets a RangeIndex, 0, 1, 2, ... *)
Definition read_csv (f : csv) : DataFrame :=
  {| columns := header f;
     rows := zip (seq 0 (length (body f))) (body f) |}.

(** Two conversions of pandas are taken as an interface: how [to_numeric]
    reads a string (NaN under [errors="coerce"] when it is no number) and
    how [astype(str)] prints a float. *)
Class Conversions : Type := {
  str_to_float : string → float64;
  float_repr : float64 → string
}.

(** [pd.to_numeric(_, errors="coerce")], entry by entry: a number stays as
    it is, a string is read. *)
Definition to_numeric `{!Conversions} (c : cell) : float64 :=
  match c with
  | CStr s => str_to_float s
  | CNum x => x
  end.

(** [astype(str)], entry by entry. *)
Definition astype_str `{!Conversions} (c : cell) : string :=
  match c with
  | CStr s => s
  | CNum x => float_repr x
  end.

(** [df[c] = values]: the column at position [p] is replaced, row by row. *)
Definition set_column (p : nat) (values : list cell)
    (rs : list (nat * list cell)) : list (nat * list cell) :=
  zip_with (λ r v, (r.1, <[p := v]> (r.2))) rs values.

(** [df[[c1, c2, c3]]] once the positions of the labels are known. *)
Definition take_columns (ps : list nat)
    (rs : list (nat * list cell)) : list (nat * list cell) :=
  (λ r, (r.1, cell_at (r.2) <$> ps)) <$> rs.

End Pandas.

(** ** Streamlit: what a page shows *)

Module St.

Inductive element : Type :=
| StSuccess (body : string)
| StError (body : string)
| StWarning (body : string)
| StDataframe (data : Pandas.DataFrame).

End St.

(** ** The College Predictor page (lines 154-194) *)

Module Predictor.
Import Py Pandas St.

(** [load_data] of lines 157-159; [data] is the file it reads. *)
Definition load_data (data : csv) : DataFrame := read_csv data.

(** The dict [category_column_map] of lines 172-178. *)
Definition category_column_map (gender : string) : list (string * string) :=
  [ ("Gen", "gen");
    ("EWS", if bool_decide (gender = "male") then "mews" else "fews");
    ("OBC", if bool_decide (gender = "male") then "mobc" else "fobc");
    ("SC", if bool_decide (gender = "male") then "msc" else "fsc");
    ("ST", if bool_decide (gender = "male") then "mst" else "fst") ].

Section Page.
Context `{!Conversions}.

(** Line 171, for one row: [str(category).strip() == sfs_gas.strip()], with
    the group column at position [g]. *)
Definition group_test (g : nat) (sfs_gas : string) (r : list cell) : bool :=
  bool_decide (strip (astype_str (cell_at r g)) = strip sfs_gas).

(** Line 171: the mask over the frame. *)
Definition group_mask (g : nat) (sfs_gas : string)
    (rs : list (nat * list cell)) : list bool :=
  (λ r, group_test g sfs_gas (r.2)) <$> rs.

(** Lines 189-190: [(column >= int(input_rank)) | column.isna()] on the
    numeric column. *)
Definition rank_mask (input_rank : Z) (numeric : list float64) : list bool :=
  zip_with orb ((λ x, float_ge x input_rank) <$> numeric) (isna <$> numeric).

(** The same test for one entry of the numeric column. *)
Definition rank_test (input_rank : Z) (x : float64) : bool :=
  float_ge x input_rank || isna x.

(** What lines 191-193 keep of a row: its label, [Institute], [Branch] and
    the numeric value of the column at position [p], shown as [Cutoff]. *)
Definition cutoff_row (i b p : nat) (r : nat * list cell) : nat * list cell :=
  (r.1, [cell_at (r.2) i; cell_at (r.2) b; CNum (to_numeric (cell_at (r.2) p))]).

(** The body of [if st.button("Predict")], lines 171-194.  [df["category"]]
    raises [KeyError] when the frame has no such column, and so does the
    selection of [["Institute", "Branch", category_column]]. *)
Definition predict (df : DataFrame) (gender sfs_gas category : string)
    (input_rank : Z) : result element :=
  match col_pos "category" df with
  | None => Raise (KeyError "category")
  | Some g =>
    let filtered_df :=
      {| columns := columns df;
         rows := loc (group_mask g sfs_gas (rows df)) (rows df) |} in
    let category_column := dict_get category (category_column_map gender) in
    match category_column ≫= (λ c, pair c <$> col_pos c filtered_df) with
    | None => Ret (StError "Category column not found")
    | Some (c, p) =>
      let numeric := (λ r, to_numeric (cell_at (r.2) p)) <$> rows filtered_df in
      let filtered_df :=
        {| columns := columns filtered_df;
           rows := set_column p (CNum <$> numeric) (rows filtered_df) |} in
      let kept := loc (rank_mask input_rank numeric) (rows filtered_df) in
      match col_pos "Institute" filtered_df, col_pos "Branch" filtered_df with
      | Some i, Some b =>
        Ret (StDataframe
               {| columns := ["Institute"; "Branch"; "Cutoff"];
                  rows := take_columns [i; b; p] kept |})
      | None, _ => Raise (KeyError "Institute")
      | Some _, None => Raise (KeyError "Branch")
      end
    end
  end.

(** The page: [df = load_data()] (line 161), then the button's body. *)
Definition college_predictor (data : csv) (gender sfs_gas category : string)
    (input_rank : Z) : result element :=
  predict (load_data data) gender sfs_gas category input_rank.

End Page.

End Predictor.

(** ** MongoDB collections *)

Module Mongo.

(** The values the two collections hold: strings, and the [ObjectId] the
    driver assigns. *)
Inductive value : Type :=
| VStr (s : string)
| VOid (n : N).

#[global] Instance value_eq_dec : EqDecision value.
Proof. solve_decision. Defined.

(** [insert_one(d)]: the driver adds an ["_id"] to a document that has
    none, and the document is appended to the collection. *)
Definition insert_one (oid : N) (d : gmap string value)
    (c : list (gmap string value)) : list (gmap string value) :=
  c ++ [ if decide (is_Some (d !! "_id")) then d else <["_id" := VOid oid]> d ].

(** [find_one({k: v})]: the first document whose field [k] is [v]. *)
Definition find_one (k : string) (v : value)
    (c : list (gmap string value)) : option (gmap string value) :=
  snd <$> list_find (λ d, d !! k = Some v) c.

(** The number under [VOid] is a bson ObjectId, twelve bytes read as one
    number: four bytes of the time it was made, in seconds since 1970, then
    five random bytes, then three bytes of a counter.  [ObjectId time random
    counter] is the id the driver makes at [time]. *)
Definition ObjectId (time random counter : N) : N :=
  (N.shiftl time 64 + N.shiftl random 24 + counter)%N.

(** [ObjectId.generation_time], in seconds: the first four bytes. *)
Definition generation_time (oid : N) : N := N.shiftr oid 64.

End Mongo.

(** ** Credentials: [register_user], [login_user] and the Login page *)

Module Auth.
Import Py St Mongo.

(** werkzeug.security, as an interface: [generate_password_hash password]
    draws a salt, [check_password_hash pwhash password] verifies. *)
Class Werkzeug : Type := {
  generate_password_hash : string → string → string;
  check_password_hash : string → string → bool
}.

(** The values [login_user] returns. *)
Inductive pyval : Type :=
| PyNone
| PyBool (b : bool).

(** Truth value, as [if login_user(...)] tests it. *)
Definition py_truth (v : pyval) : bool :=
  match v with PyNone => false | PyBool b => b end.

(** [st.session_state] as far as the Login page writes it. *)
Record session : Type := mkSession {
  authenticated : bool;
  username : option string
}.

Section Helpers.
Context `{!Werkzeug}.

(** Lines 43-48.  [salt] is the salt werkzeug draws, [oid] the ObjectId the
    driver assigns.  A document found has a ["username"] field and so is
    truthy.  Returns the error string or [None], and the collection. *)
Definition register_user (users : list (gmap string value)) (oid : N)
    (salt username password : string)
    : option string * list (gmap string value) :=
  match find_one "username" (VStr username) users with
  | Some _ => (Some "Username already exists", users)
  | None =>
    let hashed := generate_password_hash password salt in
    (None,
     insert_one oid
       {[ "username" := VStr username; "password" := VStr hashed ]} users)
  end.

(** Lines 50-52: [user and check_password_hash(user["password"], password)].
    When [user] is [None], [and] returns it. *)
Definition login_user (users : list (gmap string value))
    (username password : string) : result pyval :=
  match find_one "username" (VStr username) users with
  | None => Ret PyNone
  | Some user =>
    match user !! "password" with
    | None => Raise (KeyError "password")
    | Some (VStr pwhash) => Ret (PyBool (check_password_hash pwhash password))
    | Some (VOid _) => Raise AttributeError
    end
  end.

(** Lines 129-136: the Login button. *)
Definition login_page (s : session) (users : list (gmap string value))
    (username password : string) : result (session * element) :=
  match login_user users username password with
  | Raise e => Raise e
  | Ret v =>
    if py_truth v
    then Ret ({| authenticated := true; username := Some username |},
              StSuccess "Login successful")
    else Ret (s, StError "Invalid username or password")
  end.

(** The two operations on the users collection.  [login_user] only reads
    it. *)
Inductive request : Type :=
| Register (oid : N) (salt username password : string)
| Login (username password : string).

Definition handle (users : list (gmap string value)) (q : request)
    : list (gmap string value) :=
  match q with
  | Register oid salt username password =>
    (register_user users oid salt username password).2
  | Login username password => users
  end.

(** The users collection after a sequence of requests, from an empty one. *)
Definition served (qs : list request) : list (gmap string value) :=
  foldl handle [] qs.

(** A document that a [Register] request of [qs] stores: its ObjectId, the
    username, and the hash of the password, nothing else. *)
Definition credential (d : gmap string value) (qs : list request) : Prop :=
  ∃ oid salt username password,
    Register oid salt username password ∈ qs
    ∧ d = {[ "_id" := VOid oid; "username" := VStr username;
             "password" := VStr (generate_password_hash password salt) ]}.

End Helpers.

End Auth.

(** ** The Submit Issue page (lines 290-309) *)

Module Tickets.
Import Py St Mongo.

(** What the outside does during one submission: whether the insert
    raises, the ObjectId the driver assigns, whether the mail raises. *)
Record world : Type := mkWorld {
  store_error : option string;
  object_id : N;
  mail_error : option string
}.

(** The calls made to the two collaborators, in order. *)
Inductive call : Type :=
| InsertOne (d : gmap string value)
| SendMail (to_email subject body : string).

Definition newline : string := String (Ascii.ascii_of_nat 10) EmptyString.

(** The f-string of line 305. *)
Definition mail_body (name issue : string) : string :=
  "Hello " ++ name ++ "," ++ newline ++ newline
  ++ "Thank you for submitting your issue." ++ newline ++ newline
  ++ "Your Issue: " ++ issue ++ newline ++ newline
  ++ "Best," ++ newline ++ "ShikshaMitra Support Team".

(** [send_mail] (lines 57-65), as far as the page sees it. *)
Definition send_mail (w : world) (to_email subject body : string)
    : result unit :=
  match mail_error w with
  | None => Ret tt
  | Some message => Raise (SMTPException message)
  end.

(** Line 298: [name and email and issue]. *)
Definition required_present (name email issue : string) : bool :=
  truthy name && truthy email && truthy issue.

(** The document of line 302. *)
Definition issue_doc (name email mobile issue : string) : gmap string value :=
  {[ "name" := VStr name; "email" := VStr email;
     "mobile" := VStr mobile; "issue" := VStr issue ]}.

(** Lines 297-309: the Submit button.  Returns what the page shows (or the
    exception that escapes), the issues collection afterwards, and the
    calls made. *)
Definition submit_issue (w : world) (issues : list (gmap string value))
    (name email mobile issue : string)
    : result element * list (gmap string value) * list call :=
  if negb (required_present name email issue)
  then (Ret (StError "Name, Email, and Issue are required."), issues, [])
  else
    let d := issue_doc name email mobile issue in
    match store_error w with
    | Some message => (Raise (PyMongoError message), issues, [InsertOne d])
    | None =>
      let issues' := insert_one (object_id w) d issues in
      let subject := "Issue Submission Confirmation" in
      let body := mail_body name issue in
      let calls := [InsertOne d; SendMail email subject body] in
      match send_mail w email subject body with
      | Ret _ =>
        (Ret (StSuccess "Issue submitted. Confirmation email sent."),
         issues', calls)
      | Raise e =>
        (Ret (StWarning ("Issue saved, but email failed: " ++ exn_str e)),
         issues', calls)
      end
    end.

End Tickets.

(** ** A small instance of the two interfaces, and sample data

    Enough of pandas and werkzeug to run the pages on examples: strings of
    decimal digits are numbers, every other string is not; the sample hash
    is a stand-in with the shape of a werkzeug hash string. *)

Module Sample.
Import Py Pandas St Mongo Auth Tickets.

Fixpoint digits (s : string) (acc : N) : option N :=
  match s with
  | EmptyString => Some acc
  | String a s' =>
    let n := Ascii.N_of_ascii a in
    if ((48 <=? n) && (n <=? 57))%N
    then digits s' (10 * acc + (n - 48))%N
    else None
  end.

Definition decimal (s : string) : float64 :=
  match s with
  | EmptyString => FNaN
  | _ => match digits s 0%N with
         | Some n => FNum (inject_Z (Z.of_N n))
         | None => FNaN
         end
  end.

Definition repr (x : float64) : string :=
  match x with
  | FNum q => pretty (Qnum q / Z.pos (Qden q)) ++ ".0"
  | FPosInf => "inf"
  | FNegInf => "-inf"
  | FNaN => "nan"
  end.

Definition conversions : Conversions :=
  {| str_to_float := decimal; float_repr := repr |}.

Fixpoint is_prefix (s t : string) : bool :=
  match s, t with
  | EmptyString, _ => true
  | String a s', String b t' => bool_decide (a = b) && is_prefix s' t'
  | String _ _, EmptyString => false
  end.

Definition werkzeug : Werkzeug :=
  {| generate_password_hash password salt :=
       "pbkdf2:sha256$" ++ salt ++ "$" ++ String.rev password;
     check_password_hash pwhash password :=
       is_prefix (password ++ "$") (String.rev pwhash) |}.

Definition num (n : Z) : cell := CNum (FNum (inject_Z n)).

(** The example row of the catalog, with a second group and a row whose
    cutoff is not published. *)
Definition catalog : csv :=
  {| header := ["Institute"; "Branch"; "category"; "gen"; "mobc"; "fobc"];
     body :=
       [ [CStr "X"; CStr "CS"; CStr "SFS"; num 3000; num 4200; num 4500];
         [CStr "Y"; CStr "CS"; CStr "GAS "; num 2500; num 9000; num 9500];
         [CStr "Z"; CStr "ME"; CStr " SFS"; num 5000; CStr "--"; CNum FNaN];
         [CStr "W"; CStr "EE"; CStr "sfs"; num 5000; num 8000; num 8000] ] |}.

Definition outage : world :=
  {| store_error := None; object_id := 7%N;
     mail_error := Some "connection refused" |}.

Definition working : world :=
  {| store_error := None; object_id := 8%N; mail_error := None |}.

(** A submission at 1793792165 seconds, 2026-11-04 11:36:05 UTC: the driver
    makes the ObjectId 6aeb18a5 1122334455 000007. *)
Definition timed : world :=
  {| store_error := None;
     object_id := ObjectId 1793792165 73588229205 7;
     mail_error := None |}.

(** The table shown for a male OBC candidate of rank 4200 in group SFS. *)
Definition table_4200 : DataFrame :=
  {| columns := ["Institute"; "Branch"; "Cutoff"];
     rows := [ (0%nat, [CStr "X"; CStr "CS"; num 4200]);
               (2%nat, [CStr "Z"; CStr "ME"; CNum FNaN]) ] |}.

(** The users collection after one registration. *)
Definition one_user : list (gmap string value) :=
  (@register_user werkzeug [] 1%N "salt" "asha" "secret").2.

End Sample.

(** ** Configuration (lines 16-25) *)

Module Config.
Import Py.

Record config : Type := mkConfig {
  MONGO_URI : string;
  DB_NAME : string;
  USERS_COLL : string;
  ISSUES_DB : string;
  ISSUES_COLL : string;
  GEMINI_API_KEY : string;
  MAIL_USERNAME : string;
  MAIL_PASSWORD : string;
  MAIL_SENDER : string
}.

(** [st.secrets.get(k, d)] *)
Definition secrets_get (secrets : gmap string string) (k d : string) : string :=
  default d (secrets !! k).

(** Lines 16-25, in order: [st.secrets[k]] raises [KeyError] on a missing
    key, [st.secrets.get(k, d)] falls back on [d]. *)
Definition load_secrets (secrets : gmap string string) : result config :=
  match secrets !! "MONGO_URI" with
  | None => Raise (KeyError "MONGO_URI")
  | Some mongo_uri =>
    let db_name := secrets_get secrets "DB_NAME" "SIH" in
    let users_coll := secrets_get secrets "USERS_COLL" "users" in
    let issues_db := secrets_get secrets "ISSUES_DB" "issue_tracker" in
    let issues_coll := secrets_get secrets "ISSUES_COLL" "issues" in
    match secrets !! "GEMINI_API_KEY" with
    | None => Raise (KeyError "GEMINI_API_KEY")
    | Some gemini_api_key =>
      match secrets !! "MAIL_USERNAME" with
      | None => Raise (KeyError "MAIL_USERNAME")
      | Some mail_username =>
        match secrets !! "MAIL_PASSWORD" with
        | None => Raise (KeyError "MAIL_PASSWORD")
        | Some mail_password =>
          Ret {| MONGO_URI := mongo_uri; DB_NAME := db_name;
                 USERS_COLL := users_coll; ISSUES_DB := issues_db;
                 ISSUES_COLL := issues_coll;
                 GEMINI_API_KEY := gemini_api_key;
                 MAIL_USERNAME := mail_username;
                 MAIL_PASSWORD := mail_password;
                 MAIL_SENDER :=
                   secrets_get secrets "MAIL_SENDER" mail_username |}
        end
      end
    end
  end.

End Config.

(** ** The group selectbox of the College Predictor (lines 164-166) *)

Module Groups.
Import Py Pandas Predictor.

(** [isna] of one entry: a string is never missing. *)
Definition cell_isna (c : cell) : bool :=
  match c with
  | CNum x => isna x
  | CStr _ => false
  end.

(** [Series.dropna()]: the missing entries go. *)
Definition dropna (cs : list cell) : list cell :=
  filter (λ c, cell_isna c = false) cs.

(** [Series.unique()]: the values in order of first appearance. *)
Fixpoint unique (l : list string) : list string :=
  match l with
  | [] => []
  | x :: l' => x :: filter (λ y, y ≠ x) (unique l')
  end.

(** [sorted] on strings: ascending in code-point order. *)
Definition sorted (l : list string) : list string := merge_sort String.le l.

(** The options of the selectbox:
    [sorted(df["category"].dropna().astype(str).unique())]. *)
Definition group_options `{!Conversions} (df : DataFrame)
    : result (list string) :=
  match col_pos "category" df with
  | None => Raise (KeyError "category")
  | Some g =>
    Ret (sorted (unique (astype_str
                           <$> dropna ((λ r, cell_at (r.2) g) <$> rows df))))
  end.

End Groups.

(** ** The chatbot (lines 70-94 and 196-217)

    Here a Python string is the list of its code points, since
    [format_text] writes a bullet, U+2022. *)

Module Chat.

(** The code points of an ASCII literal. *)
Definition codes (s : string) : list N :=
  Ascii.N_of_ascii <$> String.list_ascii_of_string s.

Definition asterisk : N := 42.
Definition line_feed : N := 10.
Definition bullet : N := 8226.

(** Lines 70-77. *)
Definition PROMPT_PREFIX : list N :=
  codes ("If the user says 'hey' or 'hello', respond that you are ShikshaMitra "
    ++ "(REAP admission counselling helper). "
    ++ "I am applying for REAP (Rajasthan's engineering colleges' admission) counselling in Rajasthan. "
    ++ "Give a brief result. Generate data only on the basis of REAP counselling which you have or is available on the internet. "
    ++ "I don't want real-time data, I just want a rough idea. Even if you have no idea or it may vary, "
    ++ "if you have zero idea, you can say that you don't know about this and ask the user to raise a ticket.").

(** Two asterisks at the head of [s], and what follows them. *)
Definition stars2 (s : list N) : option (list N) :=
  match s with
  | c :: d :: rest =>
    if ((c =? asterisk) && (d =? asterisk))%N then Some rest else None
  | _ => None
  end.

(** The tail [(.*?)\*\*] of the pattern of line 85, matched at the head of
    [s]: the shortest group that two asterisks follow; [.] does not match a
    line feed.  Returns the group and what follows the match. *)
Fixpoint close_bold (s : list N) : option (list N * list N) :=
  match stars2 s with
  | Some rest => Some ([], rest)
  | None =>
    match s with
    | [] => None
    | c :: s' =>
      if (c =? line_feed)%N then None
      else (λ m, (c :: m.1, m.2)) <$> close_bold s'
    end
  end.

(** Line 85: [re.sub(r"\*\*(.*?)\*\*", lambda m: f"<b>{m.group(1)}</b>",
    text)]: the matches are found from left to right, each search starting
    where the last match ended; what is between matches is copied.  Every
    step consumes at least one character, so [fuel] steps are enough for a
    text of length [fuel]. *)
Fixpoint bold_from (fuel : nat) (s : list N) : list N :=
  match fuel with
  | O => s
  | S fuel =>
    match s with
    | [] => []
    | c :: s' =>
      match stars2 s with
      | Some body =>
        match close_bold body with
        | Some (g, rest) =>
          codes "<b>" ++ g ++ codes "</b>" ++ bold_from fuel rest
        | None => c :: bold_from fuel s'
        end
      | None => c :: bold_from fuel s'
      end
    end
  end.

Definition bold (s : list N) : list N := bold_from (length s) s.

(** [s.replace(old, new)] for a one-character [old]. *)
Definition replace_char (old : N) (new : list N) (s : list N) : list N :=
  s ≫= (λ x, if decide (x = old) then new else [x]).

(** Lines 84-88. *)
Definition format_text (text : list N) : list N :=
  let text := bold text in
  let text := replace_char asterisk [bullet] text in
  let text := replace_char line_feed (codes "<br>") text in
  text.

(** What [model.generate_content] and the read of [resp.text] come to: the
    text of the response ([None] when the response has no [text] attribute
    or it is [None]), or an exception. *)
Inductive generated : Type :=
| Response (text : option (list N))
| GenerationError (message : string).

(** What [ask_gemini] comes to. *)
Inductive asked : Type :=
| Answer (html : list N)
| AskRaises (message : string).

(** Lines 90-94.  [model] stands for the Gemini model. *)
Definition ask_gemini (model : list N → generated) (user_message : list N)
    : asked :=
  match model (PROMPT_PREFIX ++ user_message)%list with
  | GenerationError message => AskRaises message
  | Response text =>
    let txt := match text with
               | None => []
               | Some t => t
               end in
    Answer (format_text txt)
  end.

(** An entry of [st.session_state.chat_history]. *)
Record message : Type := mkMessage {
  role : string;
  content : list N
}.

(** Lines 206-217: what the page does to the history when [st.chat_input]
    returns [prompt]; the second component is the exception that escapes,
    if any.  The user's message is appended before the model is asked. *)
Definition chatbot_page (model : list N → generated)
    (chat_history : list message) (prompt : option (list N))
    : list message * option string :=
  match prompt with
  | None => (chat_history, None)
  | Some [] => (chat_history, None)
  | Some prompt =>
    let chat_history := (chat_history ++ [mkMessage "user" prompt])%list in
    match ask_gemini model prompt with
    | AskRaises message => (chat_history, Some message)
    | Answer reply_html =>
      ((chat_history ++ [mkMessage "assistant" reply_html])%list, None)
    end
  end.

(** A history made of user prompts, each followed by at most one reply of
    the assistant, the reply being an output of [format_text]. *)
Inductive conversation : list message → Prop :=
| conversation_nil : conversation []
| conversation_prompt (h : list message) (prompt : list N) :
    conversation h → conversation (h ++ [mkMessage "user" prompt])
| conversation_reply (h : list message) (prompt text : list N) :
    conversation h →
    conversation (h ++ [mkMessage "user" prompt;
                        mkMessage "assistant" (format_text text)]).

End Chat.

(** ** The pages together (lines 99-116 and the dispatch of lines 121-317) *)

Module App.
Import Py St Mongo Auth Tickets Chat.

(** The session state and the two collections. *)
Record app : Type := mkApp {
  state : session;
  chat_history : list message;
  users : list (gmap string value);
  issues : list (gmap string value)
}.

(** Lines 99-104: a new session. *)
Definition new_session (users issues : list (gmap string value)) : app :=
  {| state := {| authenticated := false; username := None |};
     chat_history := [];
     users := users;
     issues := issues |}.

(** What the user does in one run of the script.  [Browse] stands for a
    run that writes nothing: Home, FAQs, the College Predictor, or a page
    shown with no button pressed. *)
Inductive event : Type :=
| PressLogin (username password : string)
| PressRegister (oid : N) (salt new_user new_pass : string)
| Ask (model : list N → generated) (prompt : option (list N))
| PressSubmit (w : world) (name email mobile issue : string)
| ConfirmLogout
| Browse.

Section Script.
Context `{!Werkzeug}.

(** Lines 311-317. *)
Definition logout_page (s : session) : session :=
  {| authenticated := false; username := None |}.

(** One run.  Lines 110-116: the sidebar offers the pages to an
    authenticated session only; otherwise the page is Login. *)
Definition run (a : app) (e : event) : app :=
  if authenticated (state a)
  then
    match e with
    | Ask model prompt =>
      {| state := state a;
         chat_history := (chatbot_page model (chat_history a) prompt).1;
         users := users a; issues := issues a |}
    | PressSubmit w name email mobile issue =>
      {| state := state a; chat_history := chat_history a; users := users a;
         issues := (submit_issue w (issues a) name email mobile issue).1.2 |}
    | ConfirmLogout =>
      {| state := logout_page (state a); chat_history := chat_history a;
         users := users a; issues := issues a |}
    | PressLogin _ _ | PressRegister _ _ _ _ | Browse => a
    end
  else
    match e with
    | PressLogin username password =>
      match login_page (state a) (users a) username password with
      | Ret (s, _) =>
        {| state := s; chat_history := chat_history a;
           users := users a; issues := issues a |}
      | Raise _ => a
      end
    | PressRegister oid salt new_user new_pass =>
      {| state := state a; chat_history := chat_history a;
         users := (register_user (users a) oid salt new_user new_pass).2;
         issues := issues a |}
    | Ask _ _ | PressSubmit _ _ _ _ _ | ConfirmLogout | Browse => a
    end.

(** A sequence of runs. *)
Definition runs (a : app) (es : list event) : app := foldl run a es.

End Script.

End App.

(** ** Sample data for the chatbot, the session and the configuration *)

Module Scenario.
Import Py Pandas St Mongo Auth Tickets Chat App Sample.

(** A model that answers every prompt with the same text. *)
Definition fees_model (prompt : list N) : generated :=
  Response
    (Some (codes "**Fees**" ++ [line_feed] ++ codes "* tuition")%list).

(** A model that is out of reach. *)
Definition down_model (prompt : list N) : generated :=
  GenerationError "quota exceeded".

(** Asha registers, logs in, asks a question, files an issue, logs out. *)
Definition visit : list event :=
  [ PressRegister 1 "salt" "asha" "secret";
    PressLogin "asha" "secret";
    Ask fees_model (Some (codes "fees?"));
    PressSubmit outage "Asha" "asha@example.org" "" "Portal down";
    ConfirmLogout ].

(** Someone who never logs in. *)
Definition stranger : list event :=
  [ Ask fees_model (Some (codes "fees?"));
    PressSubmit working "X" "x@example.org" "" "spam";
    PressRegister 2 "salt" "mallory" "pw";
    ConfirmLogout; Browse ].

(** A secrets file with the required entries and one optional one. *)
Definition secrets : gmap string string :=
  {[ "MONGO_URI" := "mongodb://localhost"; "GEMINI_API_KEY" := "key";
     "MAIL_USERNAME" := "helpdesk@example.org"; "MAIL_PASSWORD" := "pw";
     "DB_NAME" := "REAP" ]}.

(** A catalog with no column for the institute. *)
Definition headless : csv :=
  {| header := ["Branch"; "category"; "gen"];
     body := [ [CStr "CS"; CStr "SFS"; num 3000] ] |}.

End Scenario.

(** * Properties *)

(** ** Lists, masks and frames *)

Module FrameFacts.
Import Py Pandas.

Example strip_surrounding : strip "  SFS	 " = "SFS".
Proof. reflexivity. Qed.

Example strip_keeps_inner : strip " Self Financed " = "Self Financed".
Proof. reflexivity. Qed.

Lemma lstrip_head (s : string) (a : Ascii.ascii) (t : string) :
  lstrip s = String a t → isspace a = false.
Proof.
  induction s as [|b s IH]; [done|]. cbn.
  destruct (isspace b) eqn:Hb; [done|]. by intros [= <- _].
Qed.

Lemma loc_fmap_both {A B : Type} (t : A → bool) (f : A → B) (l : list A) :
  loc (t <$> l) (f <$> l) = f <$> loc (t <$> l) l.
Proof.
  induction l as [|x l IH]; [done|].
  cbn. destruct (t x); cbn; by rewrite IH.
Qed.

Lemma loc_fmap_filter {A : Type} (t : A → bool) (l : list A) :
  loc (t <$> l) l = filter (λ x, t x = true) l.
Proof.
  induction l as [|x l IH]; [done|].
  rewrite fmap_cons, filter_cons. simpl loc. destruct (t x) eqn:E.
  - rewrite decide_True by done. by rewrite IH.
  - rewrite decide_False by congruence. done.
Qed.

Lemma elem_of_loc_fmap {A : Type} (t : A → bool) (l : list A) (x : A) :
  x ∈ loc (t <$> l) l ↔ t x = true ∧ x ∈ l.
Proof. by rewrite loc_fmap_filter, list_elem_of_filter. Qed.

Lemma loc_sublist {A : Type} (mask : list bool) (l : list A) :
  loc mask l `sublist_of` l.
Proof.
  revert mask. induction l as [|x l IH]; intros [|b mask]; cbn;
    try apply sublist_nil_l.
  destruct b; [apply sublist_skip | apply sublist_cons]; apply IH.
Qed.

Lemma set_column_fmap (p : nat) (f : nat * list cell → cell)
    (rs : list (nat * list cell)) :
  set_column p (f <$> rs) rs = (λ r, (r.1, <[p := f r]> (r.2))) <$> rs.
Proof.
  unfold set_column. induction rs as [|r rs IH]; [done|].
  cbn. by rewrite IH.
Qed.

(** Reading a row after the numeric column was written into it. *)
Lemma cell_at_written `{!Conversions} (r : list cell) (p j : nat) :
  cell_at (<[p := CNum (to_numeric (cell_at r p))]> r) j
  = if decide (j = p) then CNum (to_numeric (cell_at r p)) else cell_at r j.
Proof.
  unfold cell_at. destruct (decide (j = p)) as [->|Hne].
  - destruct (decide (p < length r)%nat) as [Hlt|Hge].
    + by rewrite list_lookup_insert_eq.
    + rewrite list_insert_ge by lia.
      rewrite (lookup_ge_None_2 r p) by lia. done.
  - by rewrite list_lookup_insert_ne.
Qed.

Lemma col_pos_Some (c : string) (df : DataFrame) (p : nat) :
  col_pos c df = Some p → columns df !! p = Some c.
Proof.
  unfold col_pos. intros H.
  apply fmap_Some in H as ([i x] & Hfind & ->).
  apply list_find_Some in Hfind as (Hl & -> & _). done.
Qed.

Lemma col_pos_is_Some (c : string) (df : DataFrame) :
  is_Some (col_pos c df) ↔ c ∈ columns df.
Proof.
  unfold col_pos. split.
  - intros [p H]. apply fmap_Some in H as ([i x] & Hfind & _).
    apply list_find_Some in Hfind as (Hl & -> & _).
    by eapply list_elem_of_lookup_2.
  - intros Hin.
    destruct (list_find_elem_of (λ l, l = c) (columns df) c Hin eq_refl)
      as [[i x] ->].
    by eexists.
Qed.

Lemma col_pos_None (c : string) (df : DataFrame) :
  col_pos c df = None ↔ c ∉ columns df.
Proof.
  rewrite <- col_pos_is_Some, eq_None_not_Some. done.
Qed.

Lemma col_pos_distinct (c c' : string) (df : DataFrame) (p p' : nat) :
  col_pos c df = Some p → col_pos c' df = Some p' → c ≠ c' → p ≠ p'.
Proof.
  intros H H' Hne ->. apply col_pos_Some in H. apply col_pos_Some in H'.
  congruence.
Qed.

(** A list zipped with its numbering from [j]. *)
Lemma elem_of_zip_seq {A : Type} (l : list A) (j i : nat) (x : A) :
  (i, x) ∈ zip (seq j (length l)) l ↔ (j ≤ i)%nat ∧ l !! (i - j)%nat = Some x.
Proof.
  revert j. induction l as [|y l IH]; intros j; cbn.
  - rewrite elem_of_nil. split; [done|]. intros [_ Hl].
    by rewrite lookup_nil in Hl.
  - rewrite elem_of_cons, IH. split.
    + intros [[= -> ->]|[Hle Hl]].
      * split; [lia|]. by rewrite Nat.sub_diag.
      * split; [lia|]. replace (i - j)%nat with (S (i - S j)) by lia. done.
    + intros [Hle Hl]. destruct (decide (i = j)) as [->|Hne].
      * left. rewrite Nat.sub_diag in Hl. cbn in Hl. by injection Hl as ->.
      * right. split; [lia|].
        replace (i - j)%nat with (S (i - S j)) in Hl by lia. done.
Qed.

Lemma seq_increasing (j n : nat) : StronglySorted lt (seq j n).
Proof.
  revert j. induction n as [|n IH]; intros j; cbn; constructor; [apply IH|].
  apply Forall_forall. intros k Hk. apply elem_of_seq in Hk. lia.
Qed.

Lemma sublist_increasing (l k : list nat) :
  l `sublist_of` k → StronglySorted lt k → StronglySorted lt l.
Proof.
  induction 1 as [|x l k Hs IH|x l k Hs IH]; intros Hk; [done|..].
  - apply StronglySorted_inv in Hk as [Hk Hx]. constructor; [by apply IH|].
    eapply Forall_forall. intros y Hy.
    eapply Forall_forall in Hx; [exact Hx|]. by eapply elem_of_sublist.
  - apply StronglySorted_inv in Hk as [Hk _]. by apply IH.
Qed.

End FrameFacts.

(** ** The College Predictor *)

Module PredictorFacts.
Import Py Pandas St Predictor FrameFacts.

(** The nine eligibility columns. *)
Lemma category_column_values (gender category c : string) :
  dict_get category (category_column_map gender) = Some c →
  c ∈ ["gen"; "mews"; "fews"; "mobc"; "fobc"; "msc"; "fsc"; "mst"; "fst"].
Proof.
  unfold category_column_map. cbn [dict_get].
  destruct (bool_decide (gender = "male"));
    repeat (case_bool_decide; [intros [= <-]; set_solver|]); done.
Qed.

Lemma category_column_fixed (gender category c : string) :
  dict_get category (category_column_map gender) = Some c →
  c ≠ "Institute" ∧ c ≠ "Branch" ∧ c ≠ "category".
Proof.
  intros H%category_column_values.
  repeat split; intros ->;
    repeat (apply elem_of_cons in H as [H|H]; [discriminate|]);
    by apply elem_of_nil in H.
Qed.

(** The frame the page works on: the lines of the file under 0, 1, 2, ... *)
Lemma elem_of_rows_load_data (data : csv) (i : nat) (r : list cell) :
  (i, r) ∈ rows (load_data data) ↔ body data !! i = Some r.
Proof.
  unfold load_data, read_csv. cbn. rewrite elem_of_zip_seq.
  rewrite Nat.sub_0_r. split; [by intros [_ ?]|].
  intros Hl. split; [lia|done].
Qed.

Lemma index_load_data (data : csv) :
  index (load_data data) = seq 0 (length (body data)).
Proof.
  unfold index, load_data, read_csv. cbn.
  apply fst_zip. by rewrite length_seq.
Qed.

Section Page.
Context {conv : Conversions}.

Lemma rank_mask_fmap {A : Type} (f : A → float64) (rank : Z) (l : list A) :
  rank_mask rank (f <$> l) = (λ r, rank_test rank (f r)) <$> l.
Proof.
  unfold rank_mask, rank_test. induction l as [|x l IH]; [done|].
  cbn. by rewrite IH.
Qed.

(** The rows kept by lines 185-193, out of the rows [rs] of the group. *)
Lemma kept_rows (i b p : nat) (rank : Z) (rs : list (nat * list cell)) :
  i ≠ p → b ≠ p →
  let numeric := (λ r, to_numeric (cell_at (r.2) p)) <$> rs in
  take_columns [i; b; p]
    (loc (rank_mask rank numeric) (set_column p (CNum <$> numeric) rs))
  = cutoff_row i b p
      <$> filter (λ r, rank_test rank (to_numeric (cell_at (r.2) p)) = true) rs.
Proof.
  intros Hi Hb numeric. subst numeric.
  rewrite rank_mask_fmap, <- list_fmap_compose, set_column_fmap.
  rewrite loc_fmap_both, loc_fmap_filter.
  unfold take_columns. rewrite <- list_fmap_compose.
  apply list_fmap_ext. intros k [l r] _. unfold cutoff_row. cbn.
  rewrite !cell_at_written.
  rewrite (decide_False (P := i = p)), (decide_False (P := b = p)) by done.
  by rewrite decide_True.
Qed.

(** When the page shows a table, this is the table. *)
Lemma predict_dataframe (df : DataFrame) (gender sfs_gas category : string)
    (rank : Z) (res : DataFrame) :
  predict df gender sfs_gas category rank = Ret (StDataframe res) →
  ∃ g c p i b,
    col_pos "category" df = Some g
    ∧ dict_get category (category_column_map gender) = Some c
    ∧ col_pos c df = Some p
    ∧ col_pos "Institute" df = Some i
    ∧ col_pos "Branch" df = Some b
    ∧ columns res = ["Institute"; "Branch"; "Cutoff"]
    ∧ rows res
      = cutoff_row i b p
          <$> filter (λ r, rank_test rank (to_numeric (cell_at (r.2) p)) = true)
                (filter (λ r, group_test g sfs_gas (r.2) = true) (rows df)).
Proof.
  unfold predict. intros H.
  destruct (col_pos "category" df) as [g|] eqn:Hg; [|done].
  destruct (dict_get category (category_column_map gender)) as [c|] eqn:Hc;
    [|done].
  cbn [mbind option_bind] in H. unfold col_pos in H. cbn [columns] in H.
  fold (col_pos c df) in H. fold (col_pos "Institute" df) in H.
  fold (col_pos "Branch" df) in H.
  destruct (col_pos c df) as [p|] eqn:Hp; [|done]. cbn [fmap option_fmap option_map] in H.
  destruct (col_pos "Institute" df) as [i|] eqn:Hi; [|done].
  destruct (col_pos "Branch" df) as [b|] eqn:Hb; [|done].
  injection H as <-. exists g, c, p, i, b. split_and!; try done.
  cbn [rows]. unfold group_mask. rewrite loc_fmap_filter.
  destruct (category_column_fixed _ _ _ Hc) as (Hci & Hcb & _).
  apply kept_rows.
  - eapply col_pos_distinct; [exact Hi|exact Hp|]. congruence.
  - eapply col_pos_distinct; [exact Hb|exact Hp|]. congruence.
Qed.

(** The page does show a table when the catalog has its group column, the
    resolved column, and the two columns it shows. *)
Lemma college_predictor_shows (data : csv) (gender sfs_gas category : string)
    (rank : Z) (c : string) :
  dict_get category (category_column_map gender) = Some c →
  "category" ∈ header data → c ∈ header data →
  "Institute" ∈ header data → "Branch" ∈ header data →
  ∃ res, college_predictor data gender sfs_gas category rank
         = Ret (StDataframe res).
Proof.
  intros Hc Hgroup Hknown Hinst Hbranch.
  apply (col_pos_is_Some "category" (load_data data)) in Hgroup as [g Hg].
  apply (col_pos_is_Some c (load_data data)) in Hknown as [p Hp].
  apply (col_pos_is_Some "Institute" (load_data data)) in Hinst as [i Hi].
  apply (col_pos_is_Some "Branch" (load_data data)) in Hbranch as [b Hb].
  unfold college_predictor, predict. rewrite Hg, Hc.
  cbn [mbind option_bind]. unfold col_pos in *. cbn [columns] in *.
  rewrite Hp, Hi, Hb. cbn [fmap option_fmap option_map]. by eexists.
Qed.

(** The same for the page, whose frame is read from the file: a line [k]
    of the file is shown exactly when both tests hold of it. *)
Lemma shown_labels (data : csv) (gender sfs_gas category : string)
    (rank : Z) (res : DataFrame) :
  college_predictor data gender sfs_gas category rank = Ret (StDataframe res) →
  ∃ g c p i b,
    col_pos "category" (load_data data) = Some g
    ∧ dict_get category (category_column_map gender) = Some c
    ∧ col_pos c (load_data data) = Some p
    ∧ col_pos "Institute" (load_data data) = Some i
    ∧ col_pos "Branch" (load_data data) = Some b
    ∧ columns res = ["Institute"; "Branch"; "Cutoff"]
    ∧ (∀ row, row ∈ rows res ↔
         ∃ r, body data !! row.1 = Some r
              ∧ group_test g sfs_gas r = true
              ∧ rank_test rank (to_numeric (cell_at r p)) = true
              ∧ row = cutoff_row i b p (row.1, r))
    ∧ index res `sublist_of` seq 0 (length (body data)).
Proof.
  unfold college_predictor. intros Hrun.
  apply predict_dataframe in Hrun
    as (g & c & p & i & b & Hg & Hc & Hp & Hi & Hb & Hcols & Hrows).
  exists g, c, p, i, b. split_and!; try done.
  - intros [k cells]. rewrite Hrows, list_elem_of_fmap. cbn [fst]. split.
    + intros ([l r] & Heq & Hin). unfold cutoff_row in Heq. cbn in Heq.
      injection Heq as -> ->.
      apply list_elem_of_filter in Hin as [Hrank Hin].
      apply list_elem_of_filter in Hin as [Hgroup Hin].
      apply elem_of_rows_load_data in Hin. by exists r.
    + intros (r & Hr & Hgroup & Hrank & Heq). exists (k, r).
      split; [done|]. apply list_elem_of_filter. split; [done|].
      apply list_elem_of_filter. split; [done|].
      by apply elem_of_rows_load_data.
  - rewrite <- index_load_data. unfold index. rewrite Hrows.
    rewrite <- list_fmap_compose.
    replace (fst ∘ cutoff_row i b p) with (@fst nat (list cell)) by done.
    apply fmap_sublist.
    etransitivity; apply sublist_filter.
Qed.

Lemma shown_label_iff (data : csv) (res : DataFrame) (g p i b : nat)
    (sfs_gas : string) (rank : Z) :
  (∀ row, row ∈ rows res ↔
     ∃ r, body data !! row.1 = Some r
          ∧ group_test g sfs_gas r = true
          ∧ rank_test rank (to_numeric (cell_at r p)) = true
          ∧ row = cutoff_row i b p (row.1, r)) →
  ∀ k r, body data !! k = Some r →
    (k ∈ index res ↔
       group_test g sfs_gas r = true
       ∧ rank_test rank (to_numeric (cell_at r p)) = true).
Proof.
  intros Hrows k r Hr. unfold index. rewrite list_elem_of_fmap. split.
  - intros (row & -> & Hin). apply Hrows in Hin as (r' & Hr' & ? & ? & _).
    by simplify_eq.
  - intros [Hgroup Hrank]. exists (cutoff_row i b p (k, r)). split; [done|].
    apply Hrows. by exists r.
Qed.

Lemma rank_test_spec (rank : Z) (x : float64) :
  rank_test rank x = true ↔
    (∃ q, x = FNum q ∧ (inject_Z rank <= q)%Q) ∨ x = FPosInf ∨ x = FNaN.
Proof.
  unfold rank_test. destruct x as [q| | |]; cbn.
  - rewrite orb_false_r, Qle_bool_iff. split.
    + intros Hle. left. by exists q.
    + intros [(q' & [= <-] & Hle)|[?|?]]; done.
  - split; [by right; left|done].
  - split; [done|]. intros [(q' & ? & _)|[?|?]]; done.
  - split; [by right; right|done].
Qed.

(** C1 (inclusion rule).  When the College Predictor shows a table for a
    catalog and a query, a line of the catalog whose group label matches is
    in the table if and only if the numeric value of its resolved column is
    a number greater than or equal to the rank (a finite one, or +inf) or is
    NaN, the unknown cutoff.  In particular a cutoff equal to the rank is
    shown, a cutoff of the rank minus one is not, and an unknown cutoff is
    shown whatever the rank. *)
Theorem C1_inclusion_rule (data : csv) (gender sfs_gas category : string)
    (rank : Z) (res : DataFrame) :
  college_predictor data gender sfs_gas category rank = Ret (StDataframe res) →
  ∃ g c p,
    col_pos "category" (load_data data) = Some g
    ∧ dict_get category (category_column_map gender) = Some c
    ∧ col_pos c (load_data data) = Some p
    ∧ ∀ k r, body data !! k = Some r →
        strip (astype_str (cell_at r g)) = strip sfs_gas →
        let x := to_numeric (cell_at r p) in
        (k ∈ index res ↔
           (∃ q, x = FNum q ∧ (inject_Z rank <= q)%Q)
           ∨ x = FPosInf ∨ x = FNaN)
        ∧ (∀ q, x = FNum q → (q == inject_Z rank)%Q → k ∈ index res)
        ∧ (∀ q, x = FNum q → (q == inject_Z (rank - 1))%Q → k ∉ index res)
        ∧ (x = FNaN → k ∈ index res).
Proof.
  intros Hrun.
  apply shown_labels in Hrun
    as (g & c & p & i & b & Hg & Hc & Hp & _ & _ & _ & Hrows & _).
  exists g, c, p. split_and!; try done.
  intros k r Hr Hgroup x.
  assert (Hiff : k ∈ index res ↔
            (∃ q, x = FNum q ∧ (inject_Z rank <= q)%Q)
            ∨ x = FPosInf ∨ x = FNaN).
  { rewrite (shown_label_iff data res g p i b sfs_gas rank Hrows k r Hr).
    rewrite <- rank_test_spec. unfold group_test.
    rewrite bool_decide_eq_true. tauto. }
  split_and!; [done|..].
  - intros q Hx Hq. apply Hiff. left. exists q. split; [done|].
    rewrite Hq. apply Qle_refl.
  - intros q Hx Hq [(q' & Hx' & Hle)|[Hinf|Hnan]]%Hiff; try congruence.
    assert (q' = q) as -> by congruence.
    rewrite Hq in Hle. rewrite <- Zle_Qle in Hle. lia.
  - intros Hx. apply Hiff. by right; right.
Qed.

(** C4 (group isolation).  Every row of the table shown is a line of the
    catalog whose group label, stripped, is the stripped group label of the
    query, character for character; a line of another group is not shown,
    whatever its cutoff. *)
Theorem C4_group_isolation (data : csv) (gender sfs_gas category : string)
    (rank : Z) (res : DataFrame) :
  college_predictor data gender sfs_gas category rank = Ret (StDataframe res) →
  ∃ g,
    col_pos "category" (load_data data) = Some g
    ∧ (∀ k, k ∈ index res →
         ∃ r, body data !! k = Some r
              ∧ strip (astype_str (cell_at r g)) = strip sfs_gas)
    ∧ (∀ k r, body data !! k = Some r →
         strip (astype_str (cell_at r g)) ≠ strip sfs_gas →
         k ∉ index res).
Proof.
  intros Hrun.
  apply shown_labels in Hrun
    as (g & c & p & i & b & Hg & _ & _ & _ & _ & _ & Hrows & _).
  exists g. split; [done|].
  assert (Honly : ∀ k, k ∈ index res →
            ∃ r, body data !! k = Some r
                 ∧ strip (astype_str (cell_at r g)) = strip sfs_gas).
  { intros k (row & -> & Hin)%list_elem_of_fmap.
    apply Hrows in Hin as (r & Hr & Hgroup & _).
    exists r. split; [done|]. unfold group_test in Hgroup.
    by apply bool_decide_eq_true in Hgroup. }
  split; [done|].
  intros k r Hr Hne (r' & Hr' & Heq)%Honly. by simplify_eq.
Qed.

(** C5 (pure, projected, in order).  The College Predictor is a function
    of the catalog and the query: two runs on the same inputs give the same
    output.  Every row of the table shown is the projection (Institute,
    Branch, numeric value of the resolved column, NaN when unknown) of the
    catalog line whose label it carries, under the columns Institute, Branch
    and Cutoff; and the labels of the table are a sublist of the catalog's
    0, 1, 2, ..., hence strictly increasing: catalog order, nothing sorted. *)
Theorem C5_pure_projection_in_order (data : csv)
    (gender sfs_gas category : string) (rank : Z) :
  (∀ out1 out2,
     college_predictor data gender sfs_gas category rank = out1 →
     college_predictor data gender sfs_gas category rank = out2 →
     out1 = out2)
  ∧ ∀ res,
      college_predictor data gender sfs_gas category rank
      = Ret (StDataframe res) →
      columns res = ["Institute"; "Branch"; "Cutoff"]
      ∧ (∃ c p i b,
           dict_get category (category_column_map gender) = Some c
           ∧ col_pos c (load_data data) = Some p
           ∧ col_pos "Institute" (load_data data) = Some i
           ∧ col_pos "Branch" (load_data data) = Some b
           ∧ ∀ row, row ∈ rows res →
               ∃ r, body data !! row.1 = Some r
                    ∧ row.2 = [cell_at r i; cell_at r b;
                               CNum (to_numeric (cell_at r p))])
      ∧ index res `sublist_of` seq 0 (length (body data))
      ∧ StronglySorted lt (index res).
Proof.
  split; [congruence|]. intros res Hrun.
  apply shown_labels in Hrun
    as (g & c & p & i & b & _ & Hc & Hp & Hi & Hb & Hcols & Hrows & Hsub).
  split_and!; try done.
  - exists c, p, i, b. split_and!; try done.
    intros row (r & Hr & _ & _ & Heq)%Hrows. exists r. split; [done|].
    by rewrite Heq.
  - eapply sublist_increasing; [exact Hsub|apply seq_increasing].
Qed.

(** C10 (cutoffs shown).  In every row of the table shown, the Cutoff entry
    is the numeric value of the resolved column of the catalog line the row
    comes from; it is NaN (unknown) or a number greater than or equal to the
    rank, so no finite cutoff below the rank is ever shown. *)
Theorem C10_cutoffs_shown (data : csv) (gender sfs_gas category : string)
    (rank : Z) (res : DataFrame) :
  college_predictor data gender sfs_gas category rank = Ret (StDataframe res) →
  ∃ c p,
    dict_get category (category_column_map gender) = Some c
    ∧ col_pos c (load_data data) = Some p
    ∧ ∀ row, row ∈ rows res →
        ∃ r x,
          body data !! row.1 = Some r
          ∧ x = to_numeric (cell_at r p)
          ∧ row.2 !! 2%nat = Some (CNum x)
          ∧ (x = FNaN ∨ float_ge x rank = true)
          ∧ (∀ q, x = FNum q → (inject_Z rank <= q)%Q)
          ∧ x ≠ FNegInf.
Proof.
  intros Hrun.
  apply shown_labels in Hrun
    as (g & c & p & i & b & _ & Hc & Hp & _ & _ & _ & Hrows & _).
  exists c, p. split_and!; try done.
  intros row (r & Hr & _ & Hrank & Heq)%Hrows.
  exists r, (to_numeric (cell_at r p)). split_and!; try done.
  - by rewrite Heq.
  - unfold rank_test in Hrank.
    destruct (to_numeric (cell_at r p)); cbn in Hrank |- *;
      [right; by rewrite orb_false_r in Hrank | by right | done | by left].
  - intros q Hq. rewrite Hq in Hrank. unfold rank_test in Hrank. cbn in Hrank.
    rewrite orb_false_r in Hrank. by apply Qle_bool_iff.
  - intros Hq. by rewrite Hq in Hrank.
Qed.

(** C6 (schema mismatch).  Let the query resolve to the column key [c].  If
    [c] is not a column of the catalog (which has its group column, as the
    page needs to offer the groups), the page shows the error "Category
    column not found" and no table.  If [c] is a column, that error is not
    shown, and a table is shown when the catalog also has the columns
    Institute and Branch. *)
Theorem C6_schema_mismatch (data : csv) (gender sfs_gas category : string)
    (rank : Z) (c : string) :
  dict_get category (category_column_map gender) = Some c →
  ("category" ∈ header data → c ∉ header data →
     college_predictor data gender sfs_gas category rank
     = Ret (StError "Category column not found")
     ∧ ∀ res, college_predictor data gender sfs_gas category rank
              ≠ Ret (StDataframe res))
  ∧ (c ∈ header data →
     (∀ message, college_predictor data gender sfs_gas category rank
                 ≠ Ret (StError message))
     ∧ ("category" ∈ header data → "Institute" ∈ header data →
        "Branch" ∈ header data →
        ∃ res, college_predictor data gender sfs_gas category rank
               = Ret (StDataframe res))).
Proof.
  intros Hc. split.
  - intros Hgroup Hmissing.
    apply (col_pos_is_Some "category" (load_data data)) in Hgroup as [g Hg].
    apply (col_pos_None c (load_data data)) in Hmissing.
    assert (Hrun : college_predictor data gender sfs_gas category rank
                   = Ret (StError "Category column not found")).
    { unfold college_predictor, predict. rewrite Hg, Hc.
      cbn [mbind option_bind]. unfold col_pos in *. cbn [columns] in *.
      by rewrite Hmissing. }
    split; [done|]. intros res. by rewrite Hrun.
  - intros Hknown. split.
    + intros message.
      apply (col_pos_is_Some c (load_data data)) in Hknown as [p Hp].
      unfold college_predictor, predict. rewrite Hc.
      cbn [mbind option_bind].
      destruct (col_pos "category" (load_data data)) as [g|]; [|done].
      unfold col_pos in *. cbn [columns] in *. rewrite Hp.
      cbn [fmap option_fmap option_map].
      by repeat case_match.
    + intros Hgroup Hinst Hbranch. by eapply college_predictor_shows.
Qed.

End Page.

End PredictorFacts.

(** ** Collections *)

Module MongoFacts.
Import Mongo.

Lemma find_one_None (k : string) (v : value) (c : list (gmap string value)) :
  find_one k v c = None ↔ ∀ d, d ∈ c → d !! k ≠ Some v.
Proof.
  unfold find_one. rewrite fmap_None, list_find_None, Forall_forall. done.
Qed.

Lemma find_one_Some (k : string) (v : value) (c : list (gmap string value))
    (d : gmap string value) :
  find_one k v c = Some d → d ∈ c ∧ d !! k = Some v.
Proof.
  unfold find_one. intros ([i x] & Hfind & ->)%fmap_Some.
  apply list_find_Some in Hfind as (Hl & Hx & _).
  split; [by eapply list_elem_of_lookup_2|done].
Qed.

Lemma find_one_is_Some (k : string) (v : value)
    (c : list (gmap string value)) :
  is_Some (find_one k v c) ↔ ∃ d, d ∈ c ∧ d !! k = Some v.
Proof.
  split.
  - intros [d Hd]. exists d. by apply find_one_Some.
  - intros (d & Hin & Hd). apply not_eq_None_Some. intros Hnone.
    by eapply find_one_None in Hnone.
Qed.

Lemma insert_one_fresh (oid : N) (d : gmap string value)
    (c : list (gmap string value)) :
  d !! "_id" = None →
  insert_one oid d c = (c ++ [<["_id" := VOid oid]> d])%list.
Proof.
  intros Hd. unfold insert_one. rewrite decide_False; [done|].
  rewrite Hd. by intros [? ?].
Qed.

End MongoFacts.

(** ** Credentials *)

Module AuthFacts.
Import Py St Mongo Auth MongoFacts.

Section Helpers.
Context {security : Werkzeug}.

(** The document [register_user] stores. *)
Lemma register_user_fresh (users : list (gmap string value)) (oid : N)
    (salt username password : string) :
  find_one "username" (VStr username) users = None →
  register_user users oid salt username password
  = (None,
     (users ++ [ {[ "_id" := VOid oid; "username" := VStr username;
                    "password" := VStr (generate_password_hash password salt)
                 ]} ])%list).
Proof.
  intros Hnone. unfold register_user. rewrite Hnone.
  by rewrite insert_one_fresh.
Qed.

Lemma register_user_taken (users : list (gmap string value)) (oid : N)
    (salt username password : string) :
  is_Some (find_one "username" (VStr username) users) →
  register_user users oid salt username password
  = (Some "Username already exists", users).
Proof. intros [d Hd]. unfold register_user. by rewrite Hd. Qed.

(** Every document of the users collection is one a [Register] request
    stored, and no two carry the same username. *)
Lemma served_snoc (qs : list request) (q : request) :
  served (qs ++ [q])%list = handle (served qs) q.
Proof. unfold served. by rewrite foldl_app. Qed.

Lemma served_credentials (qs : list request) :
  (∀ d, d ∈ served qs → credential d qs)
  ∧ NoDup ((λ d, d !! "username") <$> served qs).
Proof.
  induction qs as [|q qs [IHc IHu]] using rev_ind.
  - split; [by intros d Hd%elem_of_nil|constructor].
  - rewrite served_snoc.
    assert (Hold : ∀ d, d ∈ served qs → credential d (qs ++ [q])%list).
    { intros d (oid & salt & u & p & Hin & ->)%IHc.
      exists oid, salt, u, p. split; [|done]. apply elem_of_app. by left. }
    destruct q as [oid salt u p|u p]; cbn [handle]; [|done].
    destruct (find_one "username" (VStr u) (served qs)) as [d|] eqn:Hfind.
    + rewrite register_user_taken by done. done.
    + rewrite register_user_fresh by done. cbn [snd]. split.
      * intros d [Hd|Hd%list_elem_of_singleton]%elem_of_app; [by apply Hold|].
        exists oid, salt, u, p. split; [|done].
        apply elem_of_app. right. by apply list_elem_of_singleton.
      * rewrite fmap_app. apply NoDup_app. split_and!; [done| |].
        -- intros o (d & -> & Hd)%list_elem_of_fmap Ho.
           cbn in Ho. apply list_elem_of_singleton in Ho.
           rewrite lookup_insert_ne, lookup_insert_eq in Ho by done.
           by eapply find_one_None in Hfind.
        -- cbn. apply NoDup_singleton.
Qed.

(** C8 (registration).  [register_user] answers "Username already exists"
    exactly when a document with that username is in the users collection,
    and then leaves the collection as it was.  Otherwise it returns [None]
    and appends one document: the ObjectId, the username, and the hash of the
    password under ["password"], and no other field.  After any sequence of
    registrations and logins every stored document has that shape (what is
    stored of a password is the output of [generate_password_hash], not its
    input), and usernames are unique. *)
Theorem C8_register_unique_hashed (users : list (gmap string value))
    (oid : N) (salt username password : string) :
  let present := ∃ d, d ∈ users ∧ d !! "username" = Some (VStr username) in
  let out := register_user users oid salt username password in
  (out.1 = Some "Username already exists" ↔ present)
  ∧ (present → out.2 = users)
  ∧ (¬ present →
       out.1 = None
       ∧ ∃ d, out.2 = (users ++ [d])%list
              ∧ d !! "username" = Some (VStr username)
              ∧ d !! "password"
                = Some (VStr (generate_password_hash password salt))
              ∧ d !! "_id" = Some (VOid oid)
              ∧ dom d = ({["_id"; "username"; "password"]} : gset string))
  ∧ (∀ qs, (∀ d, d ∈ served qs → credential d qs)
           ∧ NoDup ((λ d, d !! "username") <$> served qs)).
Proof.
  intros present out. subst out.
  destruct (find_one "username" (VStr username) users) as [d|] eqn:Hfind.
  - assert (Hp : present) by (apply find_one_is_Some; by eexists).
    rewrite register_user_taken by done. cbn [fst snd].
    split_and!; [done|done|done|apply served_credentials].
  - assert (Hp : ¬ present).
    { intros Hp%find_one_is_Some. rewrite Hfind in Hp. by destruct Hp. }
    rewrite register_user_fresh by done. cbn [fst snd].
    split_and!; [done|done| |apply served_credentials].
    intros _. split; [done|]. eexists. split; [done|].
    split_and!.
    + by rewrite lookup_insert_ne, lookup_insert_eq.
    + by rewrite !lookup_insert_ne, lookup_singleton_eq.
    + by rewrite lookup_insert_eq.
    + rewrite !dom_insert_L, dom_singleton_L. set_solver.
Qed.

(** C9 (login failures), as the code has it.  [login_user] returns [None]
    when no document carries the username, and [False] when one does and
    [check_password_hash] rejects the password against its stored hash.
    Both values are falsy, and the Login page, which only tests the truth
    value, shows "Invalid username or password" and leaves the session as it
    was, the same in both cases. *)
Theorem C9_login_failures_falsy (users : list (gmap string value))
    (username password : string) :
  ((∀ d, d ∈ users → d !! "username" ≠ Some (VStr username)) →
     login_user users username password = Ret PyNone)
  ∧ (∀ user pwhash,
       find_one "username" (VStr username) users = Some user →
       user !! "password" = Some (VStr pwhash) →
       check_password_hash pwhash password = false →
       login_user users username password = Ret (PyBool false))
  ∧ (∀ v, login_user users username password = Ret v →
       v = PyNone ∨ v = PyBool false →
       py_truth v = false
       ∧ ∀ s, login_page s users username password
              = Ret (s, StError "Invalid username or password")).
Proof.
  split_and!.
  - intros Hnone%find_one_None. unfold login_user. by rewrite Hnone.
  - intros user pwhash Hfind Hpw Hcheck. unfold login_user.
    by rewrite Hfind, Hpw, Hcheck.
  - intros v Hv Hfalsy.
    assert (Ht : py_truth v = false) by (by destruct Hfalsy as [-> | ->]).
    split; [done|]. intros s. unfold login_page. by rewrite Hv, Ht.
Qed.

End Helpers.

End AuthFacts.

(** ** The Submit Issue page *)

Module TicketFacts.
Import Py St Mongo Tickets MongoFacts.

Lemma truthy_nonempty (s : string) : truthy s = true ↔ s ≠ "".
Proof. by destruct s. Qed.

Lemma required_present_true (name email issue : string) :
  required_present name email issue = true ↔
    name ≠ "" ∧ email ≠ "" ∧ issue ≠ "".
Proof.
  unfold required_present. rewrite !andb_true_iff, !truthy_nonempty.
  tauto.
Qed.

Lemma issue_doc_no_id (name email mobile issue : string) :
  issue_doc name email mobile issue !! "_id" = None.
Proof.
  unfold issue_doc. by rewrite !lookup_insert_ne, lookup_singleton_ne.
Qed.

(** The run of the page once the three required fields are there and the
    insert goes through. *)
Lemma submit_issue_saved (w : world) (issues : list (gmap string value))
    (name email mobile issue : string) :
  required_present name email issue = true →
  store_error w = None →
  ∃ shown,
    submit_issue w issues name email mobile issue
    = (Ret shown,
       (issues ++ [<["_id" := VOid (object_id w)]>
                     (issue_doc name email mobile issue)])%list,
       [InsertOne (issue_doc name email mobile issue);
        SendMail email "Issue Submission Confirmation" (mail_body name issue)])
    ∧ shown
      = match mail_error w with
        | None => StSuccess "Issue submitted. Confirmation email sent."
        | Some message =>
          StWarning ("Issue saved, but email failed: " ++ message)
        end.
Proof.
  intros Hreq Hstore. unfold submit_issue, send_mail.
  rewrite Hreq, Hstore. cbn [negb].
  rewrite insert_one_fresh by apply issue_doc_no_id.
  destruct (mail_error w) as [message|]; by eexists.
Qed.

(** C2 (saved before notified).  With the three required fields present, an
    insert that goes through and a mail that fails, the page shows the
    warning "Issue saved, but email failed: ..." (not an error), the ticket
    is in the issues collection afterwards, and every ticket that was there
    still is. *)
Theorem C2_saved_when_mail_fails (w : world)
    (issues : list (gmap string value))
    (name email mobile issue message : string) :
  required_present name email issue = true →
  store_error w = None →
  mail_error w = Some message →
  let ticket :=
    <["_id" := VOid (object_id w)]> (issue_doc name email mobile issue) in
  let out := submit_issue w issues name email mobile issue in
  out.1.1 = Ret (StWarning ("Issue saved, but email failed: " ++ message))
  ∧ out.1.2 = (issues ++ [ticket])%list
  ∧ ticket ∈ out.1.2
  ∧ (∀ d, d ∈ issues → d ∈ out.1.2)
  ∧ out.2 = [InsertOne (issue_doc name email mobile issue);
             SendMail email "Issue Submission Confirmation"
               (mail_body name issue)].
Proof.
  intros Hreq Hstore Hmail ticket out. subst out.
  destruct (submit_issue_saved w issues name email mobile issue Hreq Hstore)
    as (shown & -> & ->).
  rewrite Hmail. cbn [fst snd]. split_and!; try done.
  - apply elem_of_app. right. by apply list_elem_of_singleton.
  - intros d Hd. apply elem_of_app. by left.
Qed.

(** C3 (required fields), as the code has it.  If the name, the email or the
    issue text is the empty string, the page shows "Name, Email, and Issue
    are required.", the issues collection is unchanged, and no call is made
    to the store or to the mailer.  If none of the three is empty the page
    does not show that error, whatever the mobile field holds.  The strings
    are tested as entered. *)
Theorem C3_empty_field_rejected (w : world)
    (issues : list (gmap string value)) (name email mobile issue : string) :
  (name = "" ∨ email = "" ∨ issue = "" →
     submit_issue w issues name email mobile issue
     = (Ret (StError "Name, Email, and Issue are required."), issues, []))
  ∧ (name ≠ "" → email ≠ "" → issue ≠ "" →
     ∀ body, (submit_issue w issues name email mobile issue).1.1
             ≠ Ret (StError body)).
Proof.
  split.
  - intros Hempty. unfold submit_issue.
    assert (Hreq : required_present name email issue = false).
    { apply not_true_is_false. rewrite required_present_true. tauto. }
    by rewrite Hreq.
  - intros Hn He Hi body.
    assert (Hreq : required_present name email issue = true)
      by by apply required_present_true.
    unfold submit_issue, send_mail. rewrite Hreq. cbn [negb].
    by repeat case_match.
Qed.

(** The document added to the issues collection: the ObjectId the driver
    assigns under ["_id"], and the submitted name, email, mobile and issue. *)
Lemma stored_ticket_fields (w : world)
    (issues : list (gmap string value)) (name email mobile issue : string) :
  required_present name email issue = true →
  store_error w = None →
  ∃ ticket,
    (submit_issue w issues name email mobile issue).1.2
    = (issues ++ [ticket])%list
    ∧ ticket !! "_id" = Some (VOid (object_id w))
    ∧ ticket !! "name" = Some (VStr name)
    ∧ ticket !! "email" = Some (VStr email)
    ∧ ticket !! "mobile" = Some (VStr mobile)
    ∧ ticket !! "issue" = Some (VStr issue)
    ∧ dom ticket
      = ({["_id"; "name"; "email"; "mobile"; "issue"]} : gset string).
Proof.
  intros Hreq Hstore.
  destruct (submit_issue_saved w issues name email mobile issue Hreq Hstore)
    as (shown & -> & _).
  eexists. split; [done|]. unfold issue_doc. split_and!.
  - by rewrite lookup_insert_eq.
  - by rewrite lookup_insert_ne, lookup_insert_eq.
  - rewrite !lookup_insert_ne by done. by rewrite lookup_insert_eq.
  - rewrite !lookup_insert_ne by done. by rewrite lookup_insert_eq.
  - rewrite !lookup_insert_ne by done. by rewrite lookup_singleton_eq.
  - rewrite !dom_insert_L, dom_singleton_L. set_solver.
Qed.

(** The time of an ObjectId is the time it was made at. *)
Lemma generation_time_ObjectId (time random counter : N) :
  (random < 2 ^ 40)%N → (counter < 2 ^ 24)%N →
  generation_time (ObjectId time random counter) = time.
Proof.
  intros Hrandom Hcounter. unfold generation_time, ObjectId.
  rewrite N.shiftr_div_pow2, !N.shiftl_mul_pow2.
  change (2 ^ 40)%N with 1099511627776%N in Hrandom.
  change (2 ^ 24)%N with 16777216%N in *.
  change (2 ^ 64)%N with 18446744073709551616%N.
  symmetry.
  apply (N.div_unique _ _ time (random * 16777216 + counter)%N); lia.
Qed.

(** C7 (identity and time of the stored ticket).  With the three required
    fields present and an insert that goes through, the document added to
    the issues collection carries, besides the submitted name, email, mobile
    and issue, the ObjectId the driver assigns under ["_id"] at the insert:
    the identity of the ticket, whose first four bytes are the time the
    ticket was made at.  The page itself sets the four submitted fields
    only; identity and time come with the ObjectId. *)
Theorem C7_ticket_identity_and_time (w : world)
    (issues : list (gmap string value)) (name email mobile issue : string)
    (time random counter : N) :
  required_present name email issue = true →
  store_error w = None →
  object_id w = ObjectId time random counter →
  (random < 2 ^ 40)%N → (counter < 2 ^ 24)%N →
  ∃ ticket oid,
    (submit_issue w issues name email mobile issue).1.2
    = (issues ++ [ticket])%list
    ∧ ticket !! "_id" = Some (VOid oid)
    ∧ oid = object_id w
    ∧ generation_time oid = time
    ∧ ticket !! "name" = Some (VStr name)
    ∧ ticket !! "email" = Some (VStr email)
    ∧ ticket !! "mobile" = Some (VStr mobile)
    ∧ ticket !! "issue" = Some (VStr issue)
    ∧ dom ticket
      = ({["_id"; "name"; "email"; "mobile"; "issue"]} : gset string).
Proof.
  intros Hreq Hstore Hoid Hrandom Hcounter.
  destruct (stored_ticket_fields w issues name email mobile issue Hreq Hstore)
    as (ticket & Hadded & Hid & Hname & Hemail & Hmobile & Hissue & Hdom).
  exists ticket, (object_id w). split_and!; try done.
  rewrite Hoid. by apply generation_time_ObjectId.
Qed.

End TicketFacts.

(** ** The properties on the sample data *)

Module Examples.
Import Py Pandas St Mongo Auth Tickets Predictor Sample.
Import PredictorFacts AuthFacts TicketFacts.

#[local] Existing Instance conversions.
#[local] Existing Instance werkzeug.

(** Rank 4200 against the cutoff 4200 of line 0: shown. *)
Lemma C1_inclusion_rule_witness :
  college_predictor catalog "male" "SFS" "OBC" 4200
  = Ret (StDataframe table_4200)
  ∧ 0%nat ∈ index table_4200.
Proof.
  assert (Hrun : college_predictor catalog "male" "SFS" "OBC" 4200
                 = Ret (StDataframe table_4200)) by reflexivity.
  split; [exact Hrun|].
  destruct (C1_inclusion_rule catalog "male" "SFS" "OBC" 4200 table_4200
              Hrun) as (g & c & p & Hg & Hc & Hp & Hrows).
  vm_compute in Hg, Hc. injection Hg as <-. injection Hc as <-.
  vm_compute in Hp. injection Hp as <-.
  destruct (Hrows 0%nat _ eq_refl eq_refl) as (_ & Hexact & _).
  apply (Hexact (inject_Z 4200)); reflexivity.
Defined.

(** Line 1 is of group GAS and line 3 of group "sfs": neither is shown to a
    candidate of group SFS, though their cutoffs admit the rank. *)
Lemma C4_group_isolation_witness :
  college_predictor catalog "male" "SFS" "OBC" 4200
  = Ret (StDataframe table_4200)
  ∧ (1%nat ∉ index table_4200) ∧ (3%nat ∉ index table_4200).
Proof.
  assert (Hrun : college_predictor catalog "male" "SFS" "OBC" 4200
                 = Ret (StDataframe table_4200)) by reflexivity.
  split; [exact Hrun|].
  destruct (C4_group_isolation catalog "male" "SFS" "OBC" 4200 table_4200
              Hrun) as (g & Hg & _ & Hother).
  vm_compute in Hg. injection Hg as <-.
  split; [apply (Hother 1%nat _ eq_refl)|apply (Hother 3%nat _ eq_refl)];
    vm_compute; discriminate.
Defined.

Lemma C5_pure_projection_in_order_witness :
  college_predictor catalog "male" "SFS" "OBC" 4200
  = Ret (StDataframe table_4200)
  ∧ StronglySorted lt (index table_4200).
Proof.
  assert (Hrun : college_predictor catalog "male" "SFS" "OBC" 4200
                 = Ret (StDataframe table_4200)) by reflexivity.
  split; [exact Hrun|].
  destruct (C5_pure_projection_in_order catalog "male" "SFS" "OBC" 4200)
    as [_ Hshown].
  destruct (Hshown table_4200 Hrun) as (_ & _ & _ & Hsorted).
  exact Hsorted.
Defined.

Lemma C10_cutoffs_shown_witness :
  college_predictor catalog "male" "SFS" "OBC" 4200
  = Ret (StDataframe table_4200)
  ∧ ∀ row, row ∈ rows table_4200 →
      ∃ x, row.2 !! 2%nat = Some (CNum x)
           ∧ (x = FNaN ∨ float_ge x 4200 = true).
Proof.
  assert (Hrun : college_predictor catalog "male" "SFS" "OBC" 4200
                 = Ret (StDataframe table_4200)) by reflexivity.
  split; [exact Hrun|].
  destruct (C10_cutoffs_shown catalog "male" "SFS" "OBC" 4200 table_4200
              Hrun) as (c & p & _ & _ & Hrows).
  intros row Hrow.
  destruct (Hrows row Hrow) as (r & x & _ & _ & Hcell & Hge & _).
  exists x. split; [exact Hcell|exact Hge].
Defined.

(** The sample catalog has no column [msc]: a male SC query is a schema
    mismatch; it has [mobc]: a male OBC query is not. *)
Lemma C6_schema_mismatch_witness :
  dict_get "SC" (category_column_map "male") = Some "msc"
  ∧ college_predictor catalog "male" "SFS" "SC" 4200
    = Ret (StError "Category column not found").
Proof.
  split; [reflexivity|].
  destruct (C6_schema_mismatch catalog "male" "SFS" "SC" 4200 "msc" eq_refl)
    as [Hmissing _].
  apply Hmissing.
  - apply (bool_decide_unpack _). vm_compute. exact I.
  - apply (bool_decide_unpack _). vm_compute. exact I.
Defined.

(** A second registration of "asha" is refused and stores nothing. *)
Lemma C8_register_unique_hashed_witness :
  (∃ d, d ∈ one_user ∧ d !! "username" = Some (VStr "asha"))
  ∧ register_user one_user 2%N "pepper" "asha" "other"
    = (Some "Username already exists", one_user).
Proof.
  assert (Hpresent : ∃ d, d ∈ one_user ∧ d !! "username" = Some (VStr "asha")).
  { eexists. split; [apply list_elem_of_here|reflexivity]. }
  split; [exact Hpresent|].
  destruct (C8_register_unique_hashed one_user 2%N "pepper" "asha" "other")
    as (Hiff & Hsame & _ & _).
  apply Hiff in Hpresent as Hanswer. apply Hsame in Hpresent as Hstore.
  destruct (register_user one_user 2 "pepper" "asha" "other") as [answer store].
  cbn [fst snd] in Hanswer, Hstore. by rewrite Hanswer, Hstore.
Defined.

(** A wrong password for "asha": [False], and the page's error. *)
Lemma C9_login_failures_falsy_witness :
  login_user one_user "asha" "wrong" = Ret (PyBool false)
  ∧ login_page (mkSession false None) one_user "asha" "wrong"
    = Ret (mkSession false None, StError "Invalid username or password").
Proof.
  split; [reflexivity|].
  destruct (C9_login_failures_falsy one_user "asha" "wrong")
    as (_ & _ & Hpage).
  destruct (Hpage (PyBool false) eq_refl (or_intror eq_refl)) as [_ Hsame].
  apply Hsame.
Defined.

Lemma C2_saved_when_mail_fails_witness :
  required_present "Asha" "asha@example.org" "Portal down" = true
  ∧ (submit_issue outage [] "Asha" "asha@example.org" "" "Portal down").1.1
    = Ret (StWarning "Issue saved, but email failed: connection refused")
  ∧ (submit_issue outage [] "Asha" "asha@example.org" "" "Portal down").1.2
    = [ <["_id" := VOid 7]>
          (issue_doc "Asha" "asha@example.org" "" "Portal down") ].
Proof.
  split; [reflexivity|].
  destruct (C2_saved_when_mail_fails outage [] "Asha" "asha@example.org" ""
              "Portal down" "connection refused" eq_refl eq_refl eq_refl)
    as (Hshown & Hstore & _).
  split; [exact Hshown|exact Hstore].
Defined.

Lemma C3_empty_field_rejected_witness :
  submit_issue working [] "" "asha@example.org" "98290" "Portal down"
  = (Ret (StError "Name, Email, and Issue are required."), [], []).
Proof.
  destruct (C3_empty_field_rejected working [] "" "asha@example.org" "98290"
              "Portal down") as [Hrejected _].
  apply Hrejected. left. reflexivity.
Defined.

Lemma C7_ticket_identity_and_time_witness :
  required_present "Asha" "asha@example.org" "Portal down" = true
  ∧ ∃ ticket oid,
      (submit_issue timed [] "Asha" "asha@example.org" "" "Portal down").1.2
      = [ticket]
      ∧ ticket !! "_id" = Some (VOid oid)
      ∧ generation_time oid = 1793792165%N.
Proof.
  split; [reflexivity|].
  destruct (C7_ticket_identity_and_time timed [] "Asha" "asha@example.org" ""
              "Portal down" 1793792165 73588229205 7
              eq_refl eq_refl eq_refl eq_refl eq_refl)
    as (ticket & oid & Hstore & Hid & _ & Htime & _).
  exists ticket, oid. split; [exact Hstore|]. split; [exact Hid|exact Htime].
Defined.

(** C3 as the specification has it fails: a name of one space is empty once
    stripped, and yet the ticket is inserted and the mail sent. *)
Lemma C3_blank_name_counterexample :
  strip " " = ""
  ∧ submit_issue working [] " " "asha@example.org" "" "Portal down"
    = (Ret (StSuccess "Issue submitted. Confirmation email sent."),
       [ <["_id" := VOid 8]>
           (issue_doc " " "asha@example.org" "" "Portal down") ],
       [ InsertOne (issue_doc " " "asha@example.org" "" "Portal down");
         SendMail "asha@example.org" "Issue Submission Confirmation"
           (mail_body " " "Portal down") ]).
Proof. split; reflexivity. Qed.

(** C9 as the specification has it fails: for an unknown username
    [login_user] returns [None], not [False], so the value returned tells
    the unknown username from the wrong password. *)
Lemma C9_none_is_not_false_counterexample :
  login_user one_user "ghost" "wrong" = Ret PyNone
  ∧ login_user one_user "asha" "wrong" = Ret (PyBool false)
  ∧ login_user one_user "ghost" "wrong" ≠ login_user one_user "asha" "wrong".
Proof. split_and!; [reflexivity|reflexivity|discriminate]. Qed.

End Examples.

(** ** [format_text] and the chatbot *)

Module ChatFacts.
Import Chat.

Local Open Scope list_scope.

Lemma stars2_length (s rest : list N) :
  stars2 s = Some rest → length s = S (S (length rest)).
Proof.
  destruct s as [|c [|d s]]; try done. cbn.
  destruct ((c =? asterisk) && (d =? asterisk))%N; [|done]. by intros [= ->].
Qed.

Lemma close_bold_length (s g rest : list N) :
  close_bold s = Some (g, rest) → (length g + 2 + length rest = length s)%nat.
Proof.
  revert g. induction s as [|c s IH]; intros g; [done|].
  cbn [close_bold]. destruct (stars2 (c :: s)) as [r|] eqn:Hs.
  - intros [= <- <-]. apply stars2_length in Hs. cbn in *. lia.
  - destruct (c =? line_feed)%N; [done|].
    destruct (close_bold s) as [[g' r']|] eqn:Hc; [|done].
    cbn. intros [= <- <-]. specialize (IH _ eq_refl). cbn. lia.
Qed.

(** The fuel of [bold] is never used up: more fuel gives the same text. *)
Lemma bold_from_enough (n m : nat) (s : list N) :
  (length s ≤ n)%nat → (length s ≤ m)%nat → bold_from n s = bold_from m s.
Proof.
  revert m s. induction n as [|n IH]; intros m s Hn Hm.
  - destruct s; [|cbn in Hn; lia]. by destruct m.
  - destruct m as [|m]; [destruct s; [done|cbn in Hm; lia]|].
    destruct s as [|c s]; [done|]. cbn [bold_from]. cbn in Hn, Hm.
    destruct (stars2 (c :: s)) as [body|] eqn:Hs.
    + destruct (close_bold body) as [[g rest]|] eqn:Hc.
      * apply close_bold_length in Hc. apply stars2_length in Hs.
        cbn in Hs. do 3 f_equal. apply IH; lia.
      * f_equal. apply IH; lia.
    + f_equal. apply IH; lia.
Qed.

Lemma bold_nil : bold [] = [].
Proof. done. Qed.

(** The three cases of [bold] on a non-empty text. *)
Lemma bold_copy (c : N) (s : list N) :
  stars2 (c :: s) = None → bold (c :: s) = c :: bold s.
Proof.
  intros Hs. unfold bold. cbn [length bold_from]. by rewrite Hs.
Qed.

Lemma bold_unclosed (c : N) (s body : list N) :
  stars2 (c :: s) = Some body → close_bold body = None →
  bold (c :: s) = c :: bold s.
Proof.
  intros Hs Hc. unfold bold. cbn [length bold_from]. by rewrite Hs, Hc.
Qed.

Lemma bold_span (c : N) (s body g rest : list N) :
  stars2 (c :: s) = Some body → close_bold body = Some (g, rest) →
  bold (c :: s) = codes "<b>" ++ g ++ codes "</b>" ++ bold rest.
Proof.
  intros Hs Hc. unfold bold. cbn [length bold_from]. rewrite Hs, Hc.
  do 3 f_equal. apply close_bold_length in Hc. apply stars2_length in Hs.
  cbn in Hs. apply bold_from_enough; lia.
Qed.

Lemma stars2_head (c : N) (s : list N) :
  c ≠ asterisk → stars2 (c :: s) = None.
Proof.
  intros Hc. destruct s as [|d s]; [done|]. cbn.
  by rewrite (proj2 (N.eqb_neq c asterisk) Hc).
Qed.

Lemma bold_app_plain (a t : list N) :
  asterisk ∉ a → bold (a ++ t) = a ++ bold t.
Proof.
  induction a as [|c a IH]; [done|]. intros Hc.
  apply not_elem_of_cons in Hc as [Hc Ha]. cbn [app].
  rewrite bold_copy by (apply stars2_head; congruence).
  by rewrite IH.
Qed.

Lemma bold_plain (a : list N) : asterisk ∉ a → bold a = a.
Proof.
  intros Ha. rewrite <- (app_nil_r a) at 1. rewrite bold_app_plain by done.
  by rewrite bold_nil, app_nil_r.
Qed.

Lemma close_bold_group (g b : list N) :
  asterisk ∉ g → line_feed ∉ g →
  close_bold (g ++ asterisk :: asterisk :: b) = Some (g, b).
Proof.
  induction g as [|c g IH]; [done|]. intros Hs Hl.
  apply not_elem_of_cons in Hs as [Hs Hg].
  apply not_elem_of_cons in Hl as [Hl Hg'].
  cbn [app close_bold]. rewrite stars2_head by congruence.
  rewrite (proj2 (N.eqb_neq c line_feed)) by congruence.
  by rewrite IH.
Qed.

Lemma replace_char_app (old : N) (new s t : list N) :
  replace_char old new (s ++ t)
  = replace_char old new s ++ replace_char old new t.
Proof. unfold replace_char. apply bind_app. Qed.

Lemma replace_char_absent (old : N) (new s : list N) :
  old ∉ s → replace_char old new s = s.
Proof.
  unfold replace_char. induction s as [|c s IH]; [done|]. intros Hc.
  apply not_elem_of_cons in Hc as [Hc Hs]. cbn.
  rewrite decide_False by congruence. cbn. by rewrite IH.
Qed.

Lemma elem_of_replace_char (old y : N) (new s : list N) :
  y ∈ replace_char old new s ↔
    (y ∈ new ∧ old ∈ s) ∨ (y ≠ old ∧ y ∈ s).
Proof.
  unfold replace_char. rewrite list_elem_of_bind. split.
  - intros (x & Hy & Hx). destruct (decide (x = old)) as [->|Hne].
    + by left.
    + apply list_elem_of_singleton in Hy as ->. by right.
  - intros [[Hy Hold]|[Hne Hy]].
    + exists old. by rewrite decide_True.
    + exists y. rewrite decide_False by done.
      split; [by apply list_elem_of_singleton|done].
Qed.

Lemma format_text_free (text : list N) :
  (asterisk ∉ format_text text) ∧ (line_feed ∉ format_text text).
Proof.
  unfold format_text. split.
  - intros [[Hnew _]|[_ Hin]]%elem_of_replace_char.
    + by apply (bool_decide_pack _) in Hnew.
    + apply elem_of_replace_char in Hin as [[Hnew _]|[Hne _]]; [|done].
      by apply list_elem_of_singleton in Hnew.
  - intros [[Hnew _]|[Hne _]]%elem_of_replace_char; [|done].
    by apply (bool_decide_pack _) in Hnew.
Qed.

(** X1 (what [format_text] leaves).  Whatever the text, the output of
    [format_text] holds no asterisk and no line feed. *)
Theorem X1_format_text_clean (text : list N) :
  (asterisk ∉ format_text text) ∧ (line_feed ∉ format_text text).
Proof. apply format_text_free. Qed.

Lemma bold_no_pair (s : list N) :
  (∀ t, t `suffix_of` s → stars2 t = None) → bold s = s.
Proof.
  induction s as [|c s IH]; intros Hpair; [done|].
  rewrite bold_copy by (by apply Hpair).
  rewrite IH; [done|]. intros t Ht. apply Hpair. by apply suffix_cons_r.
Qed.

(** X2 (bullets and line breaks).  In a text with no two asterisks side by
    side nothing is set in bold: [format_text] turns every asterisk into a
    bullet and every line feed into [<br>], and copies the rest.  A text with
    no asterisk and no line feed comes back unchanged. *)
Theorem X2_format_text_without_bold (text : list N) :
  ((∀ t, t `suffix_of` text → stars2 t = None) →
     format_text text
     = replace_char line_feed (codes "<br>")
         (replace_char asterisk [bullet] text))
  ∧ (asterisk ∉ text → line_feed ∉ text → format_text text = text).
Proof.
  unfold format_text. split.
  - intros Hpair. by rewrite bold_no_pair.
  - intros Hstar Hfeed. rewrite bold_plain by done.
    rewrite (replace_char_absent asterisk) by done.
    by rewrite replace_char_absent.
Qed.

(** X3 (a bold span).  Where two asterisks open a group [g] without asterisk
    or line feed, and two asterisks close it, after a text [a] without
    asterisk, [format_text] writes [g] between [<b>] and [</b>] and formats
    what comes before and after on their own. *)
Theorem X3_format_text_bold_span (a g b : list N) :
  asterisk ∉ a → asterisk ∉ g → line_feed ∉ g →
  format_text (a ++ codes "**" ++ g ++ codes "**" ++ b)
  = format_text a ++ codes "<b>" ++ g ++ codes "</b>" ++ format_text b.
Proof.
  intros Ha Hg Hfeed. unfold format_text.
  rewrite bold_app_plain by done.
  change (codes "**" ++ g ++ codes "**" ++ b)
    with (asterisk :: asterisk :: (g ++ asterisk :: asterisk :: b)).
  rewrite (bold_span asterisk _ (g ++ asterisk :: asterisk :: b) g b);
    [|done|by apply close_bold_group].
  rewrite (bold_plain a) by done.
  rewrite !replace_char_app.
  rewrite (replace_char_absent asterisk _ g) by done.
  rewrite (replace_char_absent line_feed _ g) by done.
  done.
Qed.

(** X4 (one question on the Chatbot page).  With no prompt, or an empty one,
    the history is left as it is.  Otherwise the model is asked
    [PROMPT_PREFIX] followed by the prompt; if it answers, the history
    grows by the user's prompt and then the assistant's reply, which is the
    formatted text of the response (the empty text when the response has
    none); if it raises, the exception escapes and the history has grown by
    the user's prompt alone. *)
Theorem X4_chatbot_page (model : list N → generated)
    (chat_history : list message) (prompt : list N) :
  chatbot_page model chat_history None = (chat_history, None)
  ∧ chatbot_page model chat_history (Some []) = (chat_history, None)
  ∧ (prompt ≠ [] →
     (∀ text, model (PROMPT_PREFIX ++ prompt) = Response text →
        chatbot_page model chat_history (Some prompt)
        = (chat_history
             ++ [mkMessage "user" prompt;
                 mkMessage "assistant" (format_text (default [] text))],
           None))
     ∧ (∀ e, model (PROMPT_PREFIX ++ prompt) = GenerationError e →
          chatbot_page model chat_history (Some prompt)
          = (chat_history ++ [mkMessage "user" prompt], Some e))).
Proof.
  split_and!; [done|done|]. intros Hprompt.
  destruct prompt as [|c prompt]; [done|].
  unfold chatbot_page, ask_gemini. split.
  - intros text ->. rewrite <- app_assoc. by destruct text.
  - by intros e ->.
Qed.

(** What one question does to the history. *)
Lemma chatbot_page_history (model : list N → generated)
    (chat_history : list message) (prompt : option (list N)) :
  (chatbot_page model chat_history prompt).1 = chat_history
  ∨ (∃ p, (chatbot_page model chat_history prompt).1
          = chat_history ++ [mkMessage "user" p])
  ∨ (∃ p text, (chatbot_page model chat_history prompt).1
               = chat_history ++ [mkMessage "user" p;
                                  mkMessage "assistant" (format_text text)]).
Proof.
  destruct prompt as [[|c p]|]; [by left| |by left].
  unfold chatbot_page, ask_gemini.
  destruct (model (PROMPT_PREFIX ++ c :: p)) as [text|e]; cbn [fst].
  - right; right. exists (c :: p), (default [] text).
    rewrite <- app_assoc. by destruct text.
  - right; left. by exists (c :: p).
Qed.

Lemma conversation_entries (h : list message) :
  conversation h →
  ∀ i m, h !! i = Some m →
    (role m = "user" ∨ role m = "assistant")
    ∧ (role m = "assistant" →
       (asterisk ∉ content m) ∧ (line_feed ∉ content m)
       ∧ ∃ j u, i = S j ∧ h !! j = Some u ∧ role u = "user").
Proof.
  induction 1 as [|h prompt Hh IH|h prompt text Hh IH]; intros i m Hm.
  - by rewrite lookup_nil in Hm.
  - apply lookup_app_Some in Hm as [Hm|[Hlen Hm]].
    + destruct (IH i m Hm) as [Hrole Hreply]. split; [done|].
      intros Ha. destruct (Hreply Ha) as (? & ? & j & u & -> & Hu & ?).
      split_and!; [done|done|]. exists j, u. split_and!; [done| |done].
      by apply lookup_app_l_Some.
    + apply list_lookup_singleton_Some in Hm as [_ <-]. cbn.
      split; [by left|done].
  - apply lookup_app_Some in Hm as [Hm|[Hlen Hm]].
    + destruct (IH i m Hm) as [Hrole Hreply]. split; [done|].
      intros Ha. destruct (Hreply Ha) as (? & ? & j & u & -> & Hu & ?).
      split_and!; [done|done|]. exists j, u. split_and!; [done| |done].
      by apply lookup_app_l_Some.
    + destruct (i - length h)%nat as [|[|k]] eqn:Hk; cbn in Hm; [| |done].
      * injection Hm as <-. cbn. split; [by left|done].
      * injection Hm as <-. cbn. split; [by right|]. intros _.
        destruct (format_text_free text) as [? ?].
        split_and!; [done|done|].
        exists (length h), (mkMessage "user" prompt).
        split_and!; [lia| |done].
        rewrite lookup_app_r by lia. by rewrite Nat.sub_diag.
Qed.

End ChatFacts.

(** ** Registration and login together *)

Module LoginFacts.
Import Py St Mongo Auth MongoFacts AuthFacts.

Local Open Scope list_scope.

Lemma find_one_app_found (k : string) (v : value)
    (c l : list (gmap string value)) (d : gmap string value) :
  find_one k v c = Some d → find_one k v (c ++ l) = Some d.
Proof.
  unfold find_one. intros ([i x] & Hfind & ->)%fmap_Some.
  by rewrite (list_find_app_l _ c l i x Hfind).
Qed.

Lemma find_one_snoc_fresh (k : string) (v : value)
    (c : list (gmap string value)) (d : gmap string value) :
  find_one k v c = None → d !! k = Some v → find_one k v (c ++ [d]) = Some d.
Proof.
  unfold find_one. intros Hnone%fmap_None Hd.
  rewrite (list_find_app_r _ c [d] Hnone). cbn.
  by rewrite decide_True.
Qed.

Section Helpers.
Context {security : Werkzeug}.

(** The users collection only grows, and a document found for a username
    stays the one found. *)
Lemma handle_extends (users : list (gmap string value)) (q : request) :
  ∃ l, handle users q = users ++ l.
Proof.
  destruct q as [oid salt u p|u p]; cbn [handle].
  - destruct (find_one "username" (VStr u) users) as [d|] eqn:Hfind.
    + rewrite register_user_taken by done. exists []. by rewrite app_nil_r.
    + rewrite register_user_fresh by done. by eexists.
  - exists []. by rewrite app_nil_r.
Qed.

Lemma handled_extends (qs : list request) (users : list (gmap string value)) :
  ∃ l, foldl handle users qs = users ++ l.
Proof.
  revert users. induction qs as [|q qs IH]; intros users; cbn.
  - exists []. by rewrite app_nil_r.
  - destruct (handle_extends users q) as [l ->].
    destruct (IH (users ++ l)) as [l' ->].
    exists (l ++ l'). by rewrite app_assoc.
Qed.

(** X5 (register, then log in).  After [register_user] has stored a new
    username, [login_user] for that username returns [True] or [False] as
    [check_password_hash] answers for the hash just stored; when it is
    [True] the Login page opens the session under that username. *)
Theorem X5_register_then_login (users : list (gmap string value)) (oid : N)
    (salt username password attempt : string) (s : session) :
  find_one "username" (VStr username) users = None →
  let users' := (register_user users oid salt username password).2 in
  let accepted :=
    check_password_hash (generate_password_hash password salt) attempt in
  login_user users' username attempt = Ret (PyBool accepted)
  ∧ (accepted = true →
     login_page s users' username attempt
     = Ret ({| authenticated := true; Auth.username := Some username |},
            StSuccess "Login successful")).
Proof.
  intros Hfresh users' accepted. subst users'.
  rewrite register_user_fresh by done. cbn [snd].
  assert (Hlogin : login_user
            (users ++ [ {[ "_id" := VOid oid; "username" := VStr username;
                           "password"
                           := VStr (generate_password_hash password salt) ]} ])
            username attempt = Ret (PyBool accepted)).
  { unfold login_user. erewrite find_one_snoc_fresh; [|done|].
    - by rewrite !lookup_insert_ne, lookup_singleton_eq.
    - by rewrite lookup_insert_ne, lookup_insert_eq. }
  split; [done|]. intros Hacc. unfold login_page. rewrite Hlogin. cbn.
  by rewrite Hacc.
Qed.

(** X6 (the first registration stands).  Once a document is found for a
    username, it is the one found after any further registrations and
    logins: [login_user] answers the same for that username, whatever was
    registered since. *)
Theorem X6_credentials_stand (users : list (gmap string value))
    (username : string) (d : gmap string value) (qs : list request) :
  find_one "username" (VStr username) users = Some d →
  find_one "username" (VStr username) (foldl handle users qs) = Some d
  ∧ ∀ password,
      login_user (foldl handle users qs) username password
      = login_user users username password.
Proof.
  intros Hfound. destruct (handled_extends qs users) as [l ->].
  assert (Hstill : find_one "username" (VStr username) (users ++ l) = Some d)
    by by apply find_one_app_found.
  split; [done|]. intros password. unfold login_user.
  by rewrite Hstill, Hfound.
Qed.

(** X7 (no session without a matching hash).  The Login page opens a
    session only for a username that has a document in the users collection
    whose stored hash [check_password_hash] accepts for the password given;
    the session then carries that username.  In every other run that
    returns, the session is left as it was. *)
Theorem X7_login_needs_stored_hash (s s' : session)
    (users : list (gmap string value)) (username password : string)
    (shown : element) :
  login_page s users username password = Ret (s', shown) →
  (shown = StSuccess "Login successful"
   ∧ s' = {| authenticated := true; Auth.username := Some username |}
   ∧ ∃ d pwhash,
       d ∈ users
       ∧ d !! "username" = Some (VStr username)
       ∧ d !! "password" = Some (VStr pwhash)
       ∧ check_password_hash pwhash password = true)
  ∨ (shown = StError "Invalid username or password" ∧ s' = s).
Proof.
  unfold login_page, login_user.
  destruct (find_one "username" (VStr username) users) as [d|] eqn:Hfind.
  - apply find_one_Some in Hfind as [Hin Hname].
    destruct (d !! "password") as [[pwhash|n]|] eqn:Hpw; [|done|done].
    cbn. destruct (check_password_hash pwhash password) eqn:Hcheck.
    + intros [= <- <-]. left. split_and!; [done|done|]. by exists d, pwhash.
    + intros [= <- <-]. by right.
  - cbn. intros [= <- <-]. by right.
Qed.

End Helpers.

End LoginFacts.

(** ** More on the Submit Issue page *)

Module SubmitFacts.
Import Py St Mongo Tickets MongoFacts TicketFacts.

Local Open Scope list_scope.

(** X8 (the store fails, or everything works).  With the three required
    fields present: if the insert raises, the exception escapes, the
    collection is left as it was and no mail is attempted; if the insert
    and the mail both go through, the page shows "Issue submitted.
    Confirmation email sent.", the ticket is stored and one mail went to the
    address entered. *)
Theorem X8_store_failure_and_success (w : world)
    (issues : list (gmap string value)) (name email mobile issue : string) :
  required_present name email issue = true →
  (∀ message, store_error w = Some message →
     submit_issue w issues name email mobile issue
     = (Raise (PyMongoError message), issues,
        [InsertOne (issue_doc name email mobile issue)]))
  ∧ (store_error w = None → mail_error w = None →
     submit_issue w issues name email mobile issue
     = (Ret (StSuccess "Issue submitted. Confirmation email sent."),
        issues ++ [<["_id" := VOid (object_id w)]>
                     (issue_doc name email mobile issue)],
        [InsertOne (issue_doc name email mobile issue);
         SendMail email "Issue Submission Confirmation"
           (mail_body name issue)])).
Proof.
  intros Hreq. split.
  - intros message Hstore. unfold submit_issue. by rewrite Hreq, Hstore.
  - intros Hstore Hmail.
    destruct (submit_issue_saved w issues name email mobile issue Hreq Hstore)
      as (shown & -> & ->).
    by rewrite Hmail.
Qed.

(** X9 (no mail without a ticket; nothing is ever removed).  In every run
    of the page, whatever the inputs and whatever the store and the mailer
    do: a mail is attempted only after the ticket has been stored, and then
    exactly one, to the address entered; the collection afterwards is the
    old one, or the old one with one document appended. *)
Theorem X9_mail_only_after_insert (w : world)
    (issues : list (gmap string value)) (name email mobile issue : string) :
  let out := submit_issue w issues name email mobile issue in
  let ticket :=
    <["_id" := VOid (object_id w)]> (issue_doc name email mobile issue) in
  (∀ to_email subject body, SendMail to_email subject body ∈ out.2 →
     out.1.2 = issues ++ [ticket]
     ∧ out.2 = [InsertOne (issue_doc name email mobile issue);
                SendMail email "Issue Submission Confirmation"
                  (mail_body name issue)]
     ∧ to_email = email)
  ∧ (out.1.2 = issues ∨ out.1.2 = issues ++ [ticket])
  ∧ issues `prefix_of` out.1.2.
Proof.
  intros out ticket. subst out.
  destruct (required_present name email issue) eqn:Hreq.
  - destruct (store_error w) as [message|] eqn:Hstore.
    + unfold submit_issue. rewrite Hreq, Hstore. cbn. split_and!.
      * intros to_email subject body Hin.
        apply list_elem_of_singleton in Hin. discriminate.
      * by left.
      * done.
    + destruct (submit_issue_saved w issues name email mobile issue Hreq
                  Hstore) as (shown & -> & _).
      cbn [fst snd]. split_and!.
      * intros to_email subject body Hin. split_and!; [done|done|].
        apply elem_of_cons in Hin as [Hin|Hin]; [discriminate|].
        apply list_elem_of_singleton in Hin. by injection Hin as -> _ _.
      * by right.
      * by apply prefix_app_r.
  - unfold submit_issue. rewrite Hreq. cbn. split_and!.
    + intros to_email subject body Hin. by apply elem_of_nil in Hin.
    + by left.
    + done.
Qed.

End SubmitFacts.

(** ** The session over many runs *)

Module SessionFacts.
Import Py St Mongo Auth Tickets Chat App.
Import MongoFacts AuthFacts TicketFacts ChatFacts LoginFacts.

Local Open Scope list_scope.

Lemma submit_issue_extends (w : world) (issues : list (gmap string value))
    (name email mobile issue : string) :
  issues `prefix_of` (submit_issue w issues name email mobile issue).1.2.
Proof.
  unfold submit_issue, send_mail.
  repeat case_match; cbn [fst snd]; try done; by apply prefix_app_r.
Qed.

Section Script.
Context {security : Werkzeug}.

Lemma runs_snoc (a : app) (es : list event) (e : event) :
  runs a (es ++ [e]) = run (runs a es) e.
Proof. unfold runs. by rewrite foldl_app. Qed.

(** One run keeps: a session that is open belongs to a registered user. *)
Lemma run_keeps_owner (a : app) (e : event) :
  (authenticated (state a) = true →
   ∃ u d, username (state a) = Some u
          ∧ d ∈ users a ∧ d !! "username" = Some (VStr u)) →
  authenticated (state (run a e)) = true →
  ∃ u d, username (state (run a e)) = Some u
         ∧ d ∈ users (run a e) ∧ d !! "username" = Some (VStr u).
Proof.
  intros Hinv. unfold run.
  destruct (authenticated (state a)) eqn:Hauth.
  - destruct e; cbn; intros Hopen; try (by apply Hinv); done.
  - destruct e as [u p|oid salt u p|model prompt|w n em mo iss| |]; cbn;
      try (by rewrite Hauth).
    unfold login_page, login_user.
    destruct (find_one "username" (VStr u) (users a)) as [d|] eqn:Hfind.
    + apply find_one_Some in Hfind as [Hin Hname].
      destruct (d !! "password") as [[pwhash|n]|]; cbn;
        try (by rewrite Hauth).
      destruct (check_password_hash pwhash p); cbn; [|by rewrite Hauth].
      intros _. by exists u, d.
    + cbn. by rewrite Hauth.
Qed.

(** X10 (an open session has an owner).  After any sequence of runs from a
    new session, if the session is authenticated then it carries a
    username, and the users collection holds a document for that username. *)
Theorem X10_open_session_has_owner
    (users0 issues0 : list (gmap string value)) (es : list event) :
  let a := runs (new_session users0 issues0) es in
  authenticated (state a) = true →
  ∃ u d, username (state a) = Some u
         ∧ d ∈ users a ∧ d !! "username" = Some (VStr u).
Proof.
  induction es as [|e es IH] using rev_ind; [done|].
  cbn zeta in *. rewrite runs_snoc. by apply run_keeps_owner.
Qed.

(** X11 (nothing is written before login).  From a session that is not
    authenticated, a sequence of runs in which the Login button is never
    pressed leaves the session unauthenticated, the chat history as it was
    and the issues collection as it was: no question reaches the model and
    no ticket is stored. *)
Theorem X11_closed_session_writes_nothing (a : app) (es : list event) :
  authenticated (state a) = false →
  (∀ u p, PressLogin u p ∉ es) →
  authenticated (state (runs a es)) = false
  ∧ chat_history (runs a es) = chat_history a
  ∧ issues (runs a es) = issues a.
Proof.
  intros Hclosed. induction es as [|e es IH] using rev_ind; [done|].
  intros Hnologin. rewrite runs_snoc.
  destruct IH as (Hauth & Hchat & Hissues).
  { intros u p Hin. apply (Hnologin u p), elem_of_app. by left. }
  unfold run. rewrite Hauth.
  destruct e as [u p| | | | |]; cbn; try done.
  exfalso. apply (Hnologin u p), elem_of_app. right.
  by apply list_elem_of_singleton.
Qed.

Lemma run_extends (a : app) (e : event) :
  chat_history a `prefix_of` chat_history (run a e)
  ∧ users a `prefix_of` users (run a e)
  ∧ issues a `prefix_of` issues (run a e).
Proof.
  unfold run. destruct (authenticated (state a)).
  - destruct e as [| |model prompt|w n em mo iss| |]; cbn; try done.
    + split_and!; [|done|done].
      destruct (chatbot_page_history model (chat_history a) prompt)
        as [->|[[p ->]|(p & text & ->)]]; [done|by apply prefix_app_r..].
    + split_and!; [done|done|]. apply submit_issue_extends.
  - destruct e as [u p|oid salt u p| | | |]; cbn; try done.
    + by repeat case_match.
    + split_and!; [done| |done].
      destruct (handle_extends (users a) (Register oid salt u p)) as [l Hl].
      cbn [handle] in Hl. rewrite Hl. by apply prefix_app_r.
Qed.

(** X12 (nothing is forgotten).  Over any sequence of runs the chat history,
    the users collection and the issues collection only grow at the end:
    each is a prefix of what it is afterwards.  In particular Confirm Logout
    closes the session and keeps the chat history. *)
Theorem X12_histories_only_grow (a : app) (es : list event) :
  chat_history a `prefix_of` chat_history (runs a es)
  ∧ users a `prefix_of` users (runs a es)
  ∧ issues a `prefix_of` issues (runs a es)
  ∧ (authenticated (state a) = true →
     authenticated (state (run a ConfirmLogout)) = false
     ∧ username (state (run a ConfirmLogout)) = None
     ∧ chat_history (run a ConfirmLogout) = chat_history a).
Proof.
  split_and!.
  1-3: induction es as [|e es IH] using rev_ind; [done|];
       rewrite runs_snoc; etransitivity; [exact IH|apply run_extends].
  intros Hauth. unfold run. by rewrite Hauth.
Qed.

Lemma run_keeps_conversation (a : app) (e : event) :
  conversation (chat_history a) → conversation (chat_history (run a e)).
Proof.
  intros Hconv. unfold run. destruct (authenticated (state a)).
  - destruct e as [| |model prompt| | |]; cbn; try done.
    destruct (chatbot_page_history model (chat_history a) prompt)
      as [->|[[p ->]|(p & text & ->)]]; [done|by constructor..].
  - destruct e; cbn; try done. by repeat case_match.
Qed.

(** X13 (the chat history is a conversation).  After any sequence of runs
    from a new session, every entry of the chat history is a user's or an
    assistant's; an assistant's entry holds no asterisk and no line feed,
    and the entry just before it is a user's. *)
Theorem X13_chat_history_is_conversation
    (users0 issues0 : list (gmap string value)) (es : list event)
    (i : nat) (m : message) :
  chat_history (runs (new_session users0 issues0) es) !! i = Some m →
  (role m = "user" ∨ role m = "assistant")
  ∧ (role m = "assistant" →
     (asterisk ∉ content m) ∧ (line_feed ∉ content m)
     ∧ ∃ j u, i = S j
              ∧ chat_history (runs (new_session users0 issues0) es) !! j
                = Some u
              ∧ role u = "user").
Proof.
  apply conversation_entries.
  induction es as [|e es IH] using rev_ind; [constructor|].
  rewrite runs_snoc. by apply run_keeps_conversation.
Qed.

End Script.

End SessionFacts.

(** ** More on the College Predictor *)

Module CatalogFacts.
Import Py Pandas St Predictor Groups FrameFacts PredictorFacts.

Local Open Scope list_scope.

Lemma filter_sublist_impl {A : Type} (P Q : A → Prop)
    `{!∀ x, Decision (P x)} `{!∀ x, Decision (Q x)} (l : list A) :
  (∀ x, P x → Q x) → filter P l `sublist_of` filter Q l.
Proof.
  intros Himpl. induction l as [|x l IH]; [done|].
  rewrite !filter_cons. destruct (decide (P x)) as [HP|HP].
  - rewrite decide_True by auto. by apply sublist_skip.
  - destruct (decide (Q x)); [by apply sublist_cons|done].
Qed.

Section Page.
Context {conv : Conversions}.

Lemma rank_test_antitone (rank1 rank2 : Z) (x : float64) :
  rank1 ≤ rank2 → rank_test rank2 x = true → rank_test rank1 x = true.
Proof.
  intros Hle. unfold rank_test. destruct x as [q| | |]; cbn; try done.
  rewrite !orb_false_r, !Qle_bool_iff. intros Hq.
  eapply Qle_trans; [|exact Hq]. by rewrite <- Zle_Qle.
Qed.

(** The outcome of the page, read off the header of the file. *)
Lemma predict_positions (df : DataFrame) (gender sfs_gas category : string)
    (rank : Z) (g p i b : nat) (c : string) :
  col_pos "category" df = Some g →
  dict_get category (category_column_map gender) = Some c →
  col_pos c df = Some p →
  col_pos "Institute" df = Some i →
  col_pos "Branch" df = Some b →
  ∃ res, predict df gender sfs_gas category rank = Ret (StDataframe res).
Proof.
  intros Hg Hc Hp Hi Hb. unfold predict. rewrite Hg, Hc.
  cbn [mbind option_bind]. unfold col_pos in *. cbn [columns] in *.
  rewrite Hp, Hi, Hb. cbn [fmap option_fmap option_map]. by eexists.
Qed.

(** X14 (a worse rank sees fewer rows).  If the page shows a table for a
    rank, it shows one for every larger rank as well (all else equal), and
    the rows of the second table are rows of the first, in the same
    order. *)
Theorem X14_larger_rank_fewer_rows (data : csv)
    (gender sfs_gas category : string) (rank1 rank2 : Z) (res1 : DataFrame) :
  rank1 ≤ rank2 →
  college_predictor data gender sfs_gas category rank1
  = Ret (StDataframe res1) →
  ∃ res2,
    college_predictor data gender sfs_gas category rank2
    = Ret (StDataframe res2)
    ∧ rows res2 `sublist_of` rows res1.
Proof.
  intros Hle Hrun1. unfold college_predictor in *.
  apply predict_dataframe in Hrun1
    as (g & c & p & i & b & Hg & Hc & Hp & Hi & Hb & _ & Hrows1).
  destruct (predict_positions (load_data data) gender sfs_gas category rank2
              g p i b c Hg Hc Hp Hi Hb) as [res2 Hrun2].
  exists res2. split; [done|].
  apply predict_dataframe in Hrun2
    as (g' & c' & p' & i' & b' & Hg' & Hc' & Hp' & Hi' & Hb' & _ & Hrows2).
  simplify_eq. rewrite Hrows1, Hrows2. apply fmap_sublist.
  apply filter_sublist_impl. intros r. by apply rank_test_antitone.
Qed.

(** X15 (what the gender changes).  For the category "Gen" the page gives
    the same output whatever the gender; for every category, a gender other
    than "male" is treated as "female". *)
Theorem X15_gender_only_male_or_not (data : csv)
    (sfs_gas category : string) (rank : Z) :
  (∀ gender1 gender2,
     college_predictor data gender1 sfs_gas "Gen" rank
     = college_predictor data gender2 sfs_gas "Gen" rank)
  ∧ (∀ gender, gender ≠ "male" →
       college_predictor data gender sfs_gas category rank
       = college_predictor data "female" sfs_gas category rank).
Proof.
  split.
  - intros gender1 gender2. unfold college_predictor, predict. done.
  - intros gender Hne. unfold college_predictor, predict, category_column_map.
    by rewrite bool_decide_eq_false_2.
Qed.

(** X16 (a category the dict does not have).  For a reservation category
    other than "Gen", "EWS", "OBC", "SC" and "ST", [category_column_map.get]
    returns [None], and the page shows "Category column not found", whatever
    the catalog holds (it has its group column). *)
Theorem X16_unknown_category (data : csv)
    (gender sfs_gas category : string) (rank : Z) :
  category ∉ ["Gen"; "EWS"; "OBC"; "SC"; "ST"] →
  "category" ∈ header data →
  dict_get category (category_column_map gender) = None
  ∧ college_predictor data gender sfs_gas category rank
    = Ret (StError "Category column not found").
Proof.
  intros Hcat Hgroup.
  assert (Hnone : dict_get category (category_column_map gender) = None).
  { unfold category_column_map. cbn [dict_get].
    destruct (bool_decide (gender = "male"));
    repeat (case_bool_decide;
            [exfalso; apply Hcat; subst category;
             apply (bool_decide_unpack _); by vm_compute|]);
    done. }
  split; [done|].
  apply (col_pos_is_Some "category" (load_data data)) in Hgroup as [g Hg].
  unfold college_predictor, predict. by rewrite Hg, Hnone.
Qed.

(** X17 (no line qualifies).  If the catalog has the columns the page
    needs and every line of the group asked for has a cutoff that is a
    number below the rank (so none is at least the rank, and none is
    unknown), the page shows the table with its three columns and no row,
    not an error message. *)
Theorem X17_no_qualifying_line_empty_table (data : csv)
    (gender sfs_gas category : string) (rank : Z) (c : string) (g p : nat) :
  dict_get category (category_column_map gender) = Some c →
  col_pos "category" (load_data data) = Some g →
  col_pos c (load_data data) = Some p →
  "Institute" ∈ header data → "Branch" ∈ header data →
  (∀ k r, body data !! k = Some r →
     strip (astype_str (cell_at r g)) = strip sfs_gas →
     float_ge (to_numeric (cell_at r p)) rank = false
     ∧ isna (to_numeric (cell_at r p)) = false) →
  college_predictor data gender sfs_gas category rank
  = Ret (StDataframe {| columns := ["Institute"; "Branch"; "Cutoff"];
                        rows := [] |}).
Proof.
  intros Hc Hg Hp Hinst Hbranch Hnone.
  assert (Hgroup : "category" ∈ header data)
    by (apply (col_pos_is_Some "category" (load_data data)); by eexists).
  assert (Hknown : c ∈ header data)
    by (apply (col_pos_is_Some c (load_data data)); by eexists).
  destruct (college_predictor_shows data gender sfs_gas category rank c
              Hc Hgroup Hknown Hinst Hbranch) as [res Hrun].
  rewrite Hrun. do 2 f_equal.
  apply shown_labels in Hrun
    as (g' & c' & p' & i & b & Hg' & Hc' & Hp' & _ & _ & Hcols & Hrows & _).
  assert (g' = g) as -> by congruence.
  assert (c' = c) as -> by congruence.
  assert (p' = p) as -> by congruence.
  destruct res as [cols rs]. cbn in *. subst cols. f_equal.
  destruct rs as [|row rs]; [done|]. exfalso.
  destruct (proj1 (Hrows row) (list_elem_of_here _ _))
    as (r & Hr & Hgrp & Hrank & _).
  unfold group_test in Hgrp. apply bool_decide_eq_true in Hgrp.
  destruct (Hnone _ _ Hr Hgrp) as [Hge Hna].
  unfold rank_test in Hrank. by rewrite Hge, Hna in Hrank.
Qed.

(** X18 (columns the frame lacks).  Without its group column the catalog
    makes [df["category"]] raise [KeyError].  With the group column and the
    resolved column, a catalog without "Institute", or with it and without
    "Branch", makes the selection of the three columns raise [KeyError]:
    these are exceptions, not the "Category column not found" error. *)
Theorem X18_missing_columns_raise (data : csv)
    (gender sfs_gas category : string) (rank : Z) :
  ("category" ∉ header data →
     college_predictor data gender sfs_gas category rank
     = Raise (KeyError "category"))
  ∧ (∀ c, dict_get category (category_column_map gender) = Some c →
       "category" ∈ header data → c ∈ header data →
       ("Institute" ∉ header data →
          college_predictor data gender sfs_gas category rank
          = Raise (KeyError "Institute"))
       ∧ ("Institute" ∈ header data → "Branch" ∉ header data →
          college_predictor data gender sfs_gas category rank
          = Raise (KeyError "Branch"))).
Proof.
  split.
  - intros Hmissing. apply (col_pos_None "category" (load_data data)) in Hmissing.
    unfold college_predictor, predict. by rewrite Hmissing.
  - intros c Hc Hgroup Hknown.
    apply (col_pos_is_Some "category" (load_data data)) in Hgroup as [g Hg].
    apply (col_pos_is_Some c (load_data data)) in Hknown as [p Hp].
    split.
    + intros Hinst. apply (col_pos_None "Institute" (load_data data)) in Hinst.
      unfold college_predictor, predict. rewrite Hg, Hc.
      cbn [mbind option_bind]. unfold col_pos in *. cbn [columns] in *.
      by rewrite Hp, Hinst.
    + intros Hinst Hbranch.
      apply (col_pos_is_Some "Institute" (load_data data)) in Hinst as [i Hi].
      apply (col_pos_None "Branch" (load_data data)) in Hbranch.
      unfold college_predictor, predict. rewrite Hg, Hc.
      cbn [mbind option_bind]. unfold col_pos in *. cbn [columns] in *.
      by rewrite Hp, Hi, Hbranch.
Qed.

End Page.

End CatalogFacts.

(** ** [strip] and the group label; the options of the selectbox *)

Module LabelFacts.
Import Py Pandas St Predictor Groups FrameFacts PredictorFacts.

Lemma append_assoc (s t u : string) : (s ++ t) ++ u = s ++ (t ++ u).
Proof.
  induction s as [|a s IH]; [done|].
  change (String a ((s ++ t) ++ u) = String a (s ++ (t ++ u))).
  by rewrite IH.
Qed.

Lemma append_empty_r (s : string) : s ++ "" = s.
Proof.
  induction s as [|a s IH]; [done|].
  change (String a (s ++ "") = String a s). by rewrite IH.
Qed.

Lemma rev_app_append (s t : string) : String.rev_app s t = String.rev s ++ t.
Proof.
  revert t. induction s as [|a s IH]; intros t; [done|].
  change (String.rev_app s (String a t)
          = String.rev_app s (String a "") ++ t).
  rewrite (IH (String a t)), (IH (String a "")).
  by rewrite append_assoc.
Qed.

Lemma rev_cons (a : Ascii.ascii) (s : string) :
  String.rev (String a s) = String.rev s ++ String a "".
Proof. unfold String.rev at 1. cbn. apply rev_app_append. Qed.

Lemma rev_append (s t : string) :
  String.rev (s ++ t) = String.rev t ++ String.rev s.
Proof.
  induction s as [|a s IH].
  - change (String.rev t = String.rev t ++ ""). by rewrite append_empty_r.
  - change (String a s ++ t) with (String a (s ++ t)).
    by rewrite !rev_cons, IH, append_assoc.
Qed.

(** A string of whitespace only is one that [lstrip] empties. *)
Lemma lstrip_blank_cons (a : Ascii.ascii) (s : string) :
  lstrip (String a s) = "" ↔ isspace a = true ∧ lstrip s = "".
Proof.
  cbn. destruct (isspace a).
  - split; [by intros ?|by intros [_ ?]].
  - split; [done|by intros [? _]].
Qed.

Lemma lstrip_blank_append (l t : string) :
  lstrip l = "" → lstrip (l ++ t) = lstrip t.
Proof.
  induction l as [|a l IH]; [done|].
  intros [Ha Hl]%lstrip_blank_cons.
  change (String a l ++ t) with (String a (l ++ t)).
  cbn [lstrip]. rewrite Ha. by apply IH.
Qed.

Lemma lstrip_append (s r : string) :
  lstrip s ≠ "" → lstrip (s ++ r) = lstrip s ++ r.
Proof.
  induction s as [|a s IH]; [done|].
  change (String a s ++ r) with (String a (s ++ r)). cbn [lstrip].
  destruct (isspace a); [apply IH|done].
Qed.

Lemma rev_blank (r : string) : lstrip r = "" → lstrip (String.rev r) = "".
Proof.
  induction r as [|a r IH]; [done|].
  intros [Ha Hr]%lstrip_blank_cons. rewrite rev_cons.
  rewrite lstrip_blank_append by auto. cbn [lstrip]. by rewrite Ha.
Qed.

Lemma rstrip_append_blank (t r : string) :
  lstrip r = "" → rstrip (t ++ r) = rstrip t.
Proof.
  intros Hr. unfold rstrip. rewrite rev_append.
  by rewrite lstrip_blank_append by by apply rev_blank.
Qed.

(** Whitespace around a string does not change what [strip] returns. *)
Lemma strip_padded (l s r : string) :
  lstrip l = "" → lstrip r = "" → strip (l ++ s ++ r) = strip s.
Proof.
  intros Hl Hr. unfold strip. rewrite lstrip_blank_append by done.
  destruct (decide (lstrip s = "")) as [Hs|Hs].
  - rewrite lstrip_blank_append by done. by rewrite Hr, Hs.
  - rewrite lstrip_append by done. by apply rstrip_append_blank.
Qed.

Section Page.
Context {conv : Conversions}.

(** X19 (whitespace around the group asked for).  Whitespace before and
    after the group label of the query changes nothing: the page gives the
    same output as for the bare label. *)
Theorem X19_padded_group_label (data : csv)
    (gender sfs_gas category before after : string) (rank : Z) :
  lstrip before = "" → lstrip after = "" →
  college_predictor data gender (before ++ sfs_gas ++ after) category rank
  = college_predictor data gender sfs_gas category rank.
Proof.
  intros Hb Ha. unfold college_predictor, predict, group_mask, group_test.
  by rewrite strip_padded.
Qed.

Lemma elem_of_unique (l : list string) (x : string) :
  x ∈ unique l ↔ x ∈ l.
Proof.
  induction l as [|y l IH]; [done|]. cbn.
  rewrite !elem_of_cons, list_elem_of_filter, IH.
  destruct (decide (x = y)); tauto.
Qed.

Lemma NoDup_unique (l : list string) : NoDup (unique l).
Proof.
  induction l as [|y l IH]; cbn; constructor.
  - rewrite list_elem_of_filter. by intros [? _].
  - by apply NoDup_filter.
Qed.

(** X20 (the groups offered).  The options of the group selectbox are in
    ascending order without repetition; they are exactly the strings of the
    entries of the group column that are not missing; and each option, once
    chosen, is the group of at least one line of the catalog. *)
Theorem X20_group_options (data : csv) (options : list string) :
  group_options (load_data data) = Ret options →
  ∃ g,
    col_pos "category" (load_data data) = Some g
    ∧ StronglySorted String.le options
    ∧ NoDup options
    ∧ (∀ o, o ∈ options ↔
         ∃ k r, body data !! k = Some r
                ∧ cell_isna (cell_at r g) = false
                ∧ o = astype_str (cell_at r g))
    ∧ (∀ o, o ∈ options →
         ∃ k r, body data !! k = Some r ∧ group_test g o r = true).
Proof.
  unfold group_options.
  destruct (col_pos "category" (load_data data)) as [g|]; [|done].
  intros [= <-]. exists g. unfold sorted.
  set (labels := unique _).
  assert (Hmem : ∀ o, o ∈ merge_sort String.le labels ↔
            ∃ k r, body data !! k = Some r
                   ∧ cell_isna (cell_at r g) = false
                   ∧ o = astype_str (cell_at r g)).
  { intros o. rewrite merge_sort_Permutation. subst labels.
    rewrite elem_of_unique, list_elem_of_fmap. unfold dropna. split.
    - intros (c & -> & Hc). apply list_elem_of_filter in Hc as [Hna Hc].
      apply list_elem_of_fmap in Hc as ([k r] & -> & Hin).
      apply elem_of_rows_load_data in Hin. by exists k, r.
    - intros (k & r & Hr & Hna & ->). exists (cell_at r g). split; [done|].
      apply list_elem_of_filter. split; [done|].
      apply list_elem_of_fmap. exists (k, r). split; [done|].
      by apply elem_of_rows_load_data. }
  split_and!; [done| | |done|].
  - apply StronglySorted_merge_sort; apply _.
  - rewrite merge_sort_Permutation. apply NoDup_unique.
  - intros o (k & r & Hr & _ & ->)%Hmem. exists k, r. split; [done|].
    unfold group_test. by apply bool_decide_eq_true.
Qed.

End Page.

End LabelFacts.

(** ** Configuration *)

Module ConfigFacts.
Import Py Config.

(** X21 (the secrets the app needs).  [load_secrets] returns a
    configuration exactly when the secrets hold MONGO_URI, GEMINI_API_KEY,
    MAIL_USERNAME and MAIL_PASSWORD, and raises [KeyError] otherwise.  In the
    configuration returned every optional entry is the secret given, or else
    its default: SIH, users, issue_tracker, issues, and for the sender the
    mail username. *)
Theorem X21_required_and_default_secrets (secrets : gmap string string) :
  ((∃ cfg, load_secrets secrets = Ret cfg) ↔
     is_Some (secrets !! "MONGO_URI") ∧ is_Some (secrets !! "GEMINI_API_KEY")
     ∧ is_Some (secrets !! "MAIL_USERNAME")
     ∧ is_Some (secrets !! "MAIL_PASSWORD"))
  ∧ (∀ e, load_secrets secrets = Raise e →
       ∃ key, e = KeyError key ∧ secrets !! key = None)
  ∧ (∀ cfg, load_secrets secrets = Ret cfg →
       secrets !! "MONGO_URI" = Some (MONGO_URI cfg)
       ∧ secrets !! "GEMINI_API_KEY" = Some (GEMINI_API_KEY cfg)
       ∧ secrets !! "MAIL_USERNAME" = Some (MAIL_USERNAME cfg)
       ∧ secrets !! "MAIL_PASSWORD" = Some (MAIL_PASSWORD cfg)
       ∧ DB_NAME cfg = default "SIH" (secrets !! "DB_NAME")
       ∧ USERS_COLL cfg = default "users" (secrets !! "USERS_COLL")
       ∧ ISSUES_DB cfg = default "issue_tracker" (secrets !! "ISSUES_DB")
       ∧ ISSUES_COLL cfg = default "issues" (secrets !! "ISSUES_COLL")
       ∧ MAIL_SENDER cfg
         = default (MAIL_USERNAME cfg) (secrets !! "MAIL_SENDER")).
Proof.
  unfold load_secrets, secrets_get.
  destruct (secrets !! "MONGO_URI") as [uri|] eqn:Huri;
    [destruct (secrets !! "GEMINI_API_KEY") as [key|] eqn:Hkey;
     [destruct (secrets !! "MAIL_USERNAME") as [user|] eqn:Huser;
      [destruct (secrets !! "MAIL_PASSWORD") as [pass|] eqn:Hpass|]|]|].
  - split_and!.
    + split; [intros _; by split_and!|intros _; by eexists].
    + done.
    + by intros cfg [= <-].
  - split_and!.
    + split; [by intros [? ?]|by intros (_ & _ & _ & [? ?])].
    + intros e [= <-]. by exists "MAIL_PASSWORD".
    + done.
  - split_and!.
    + split; [by intros [? ?]|by intros (_ & _ & [? ?] & _)].
    + intros e [= <-]. by exists "MAIL_USERNAME".
    + done.
  - split_and!.
    + split; [by intros [? ?]|by intros (_ & [? ?] & _)].
    + intros e [= <-]. by exists "GEMINI_API_KEY".
    + done.
  - split_and!.
    + split; [by intros [? ?]|by intros ([? ?] & _)].
    + intros e [= <-]. by exists "MONGO_URI".
    + done.
Qed.

End ConfigFacts.

(** ** The further properties on the sample data *)

Module Scenarios.
Import Py Pandas St Mongo Auth Tickets Predictor Groups Chat App Config.
Import Sample Scenario.
Import ChatFacts LoginFacts SubmitFacts SessionFacts CatalogFacts LabelFacts
  ConfigFacts.

#[local] Existing Instance conversions.
#[local] Existing Instance werkzeug.

Local Open Scope list_scope.

(** "* a": one asterisk becomes a bullet. *)
Lemma X2_format_text_without_bold_witness :
  format_text (codes "* a") = bullet :: codes " a"
  ∧ format_text (codes "REAP 2024") = codes "REAP 2024".
Proof.
  destruct (X2_format_text_without_bold (codes "* a")) as [Hbullets _].
  destruct (X2_format_text_without_bold (codes "REAP 2024")) as [_ Hplain].
  split.
  - rewrite Hbullets; [reflexivity|]. intros t Ht.
    change (codes "* a") with [asterisk; 32%N; 97%N] in Ht.
    destruct t as [|c t]; [reflexivity|].
    repeat (apply suffix_cons_inv in Ht as [Heq|Ht];
            [rewrite Heq; reflexivity|]).
    by apply suffix_cons_nil_inv in Ht.
  - apply Hplain; apply (bool_decide_unpack _); vm_compute; exact I.
Defined.

Lemma X3_format_text_bold_span_witness :
  format_text (codes "Fee: **500** per mode")
  = codes "Fee: <b>500</b> per mode".
Proof.
  apply (X3_format_text_bold_span (codes "Fee: ") (codes "500")
           (codes " per mode"));
    apply (bool_decide_unpack _); vm_compute; exact I.
Defined.

Lemma X4_chatbot_page_witness :
  chatbot_page fees_model [] (Some (codes "fees?"))
  = ([ mkMessage "user" (codes "fees?");
       mkMessage "assistant"
         (codes "<b>Fees</b><br>" ++ bullet :: codes " tuition") ], None)
  ∧ chatbot_page down_model [] (Some (codes "fees?"))
    = ([ mkMessage "user" (codes "fees?") ], Some "quota exceeded").
Proof.
  destruct (X4_chatbot_page fees_model [] (codes "fees?"))
    as (_ & _ & Hfees).
  destruct (X4_chatbot_page down_model [] (codes "fees?"))
    as (_ & _ & Hdown).
  split.
  - destruct Hfees as [Hanswer _]; [discriminate|].
    rewrite (Hanswer _ eq_refl). reflexivity.
  - destruct Hdown as [_ Hraise]; [discriminate|].
    apply (Hraise _ eq_refl).
Defined.

Lemma X5_register_then_login_witness :
  find_one "username" (VStr "asha") [] = None
  ∧ login_user one_user "asha" "secret" = Ret (PyBool true).
Proof.
  split; [reflexivity|].
  destruct (X5_register_then_login [] 1%N "salt" "asha" "secret" "secret"
              (mkSession false None) eq_refl) as [Hlogin _].
  exact Hlogin.
Defined.

Lemma X6_credentials_stand_witness :
  login_user
    (foldl handle one_user [Register 2 "pepper" "asha" "other";
                            Register 3 "salt" "ravi" "pw"])
    "asha" "secret"
  = Ret (PyBool true).
Proof.
  destruct (X6_credentials_stand one_user "asha" _
              [Register 2 "pepper" "asha" "other";
               Register 3 "salt" "ravi" "pw"] eq_refl) as [_ Hsame].
  rewrite Hsame. reflexivity.
Defined.

Lemma X7_login_needs_stored_hash_witness :
  login_page (mkSession false None) one_user "asha" "secret"
  = Ret (mkSession true (Some "asha"), StSuccess "Login successful")
  ∧ ∃ d pwhash,
      d ∈ one_user ∧ d !! "password" = Some (VStr pwhash)
      ∧ check_password_hash pwhash "secret" = true.
Proof.
  assert (Hrun : login_page (mkSession false None) one_user "asha" "secret"
                 = Ret (mkSession true (Some "asha"),
                        StSuccess "Login successful")) by reflexivity.
  split; [exact Hrun|].
  destruct (X7_login_needs_stored_hash _ _ _ _ _ _ Hrun)
    as [(_ & _ & d & pwhash & Hd & _ & Hpw & Hcheck)|[Hshown _]];
    [|discriminate].
  exists d, pwhash. split_and!; assumption.
Defined.

Lemma X8_store_failure_and_success_witness :
  submit_issue (mkWorld (Some "no primary") 9 None) []
    "Asha" "asha@example.org" "" "Portal down"
  = (Raise (PyMongoError "no primary"), [],
     [InsertOne (issue_doc "Asha" "asha@example.org" "" "Portal down")]).
Proof.
  destruct (X8_store_failure_and_success (mkWorld (Some "no primary") 9 None)
              [] "Asha" "asha@example.org" "" "Portal down" eq_refl)
    as [Hfail _].
  apply (Hfail "no primary" eq_refl).
Defined.

Lemma X9_mail_only_after_insert_witness :
  (submit_issue outage [] "Asha" "asha@example.org" "" "Portal down").1.2
  = [ <["_id" := VOid 7]>
        (issue_doc "Asha" "asha@example.org" "" "Portal down") ].
Proof.
  destruct (X9_mail_only_after_insert outage [] "Asha" "asha@example.org" ""
              "Portal down") as (Hmail & _ & _).
  destruct (Hmail "asha@example.org" "Issue Submission Confirmation"
              (mail_body "Asha" "Portal down")) as (Hstored & _ & _).
  - apply list_elem_of_further, list_elem_of_here.
  - exact Hstored.
Defined.

(** After the first two runs of the visit the session is Asha's. *)
Lemma X10_open_session_has_owner_witness :
  authenticated (state (runs (new_session [] []) (take 2 visit))) = true
  ∧ ∃ u d, username (state (runs (new_session [] []) (take 2 visit))) = Some u
           ∧ d ∈ users (runs (new_session [] []) (take 2 visit))
           ∧ d !! "username" = Some (VStr u).
Proof.
  split; [reflexivity|].
  apply (X10_open_session_has_owner [] [] (take 2 visit)). reflexivity.
Defined.

Lemma X11_closed_session_writes_nothing_witness :
  chat_history (runs (new_session [] []) stranger) = []
  ∧ issues (runs (new_session [] []) stranger) = [].
Proof.
  destruct (X11_closed_session_writes_nothing (new_session [] []) stranger)
    as (_ & Hchat & Hissues).
  - reflexivity.
  - intros u p Hin.
    repeat (apply elem_of_cons in Hin as [Hin|Hin]; [discriminate|]).
    by apply elem_of_nil in Hin.
  - split; [exact Hchat|exact Hissues].
Defined.

(** The visit ends logged out, with the two chat entries still there. *)
Lemma X12_histories_only_grow_witness :
  authenticated (state (runs (new_session [] []) visit)) = false
  ∧ length (chat_history (runs (new_session [] []) visit)) = 2%nat
  ∧ chat_history (runs (new_session [] []) (take 3 visit))
    `prefix_of` chat_history (runs (new_session [] []) visit).
Proof.
  split; [reflexivity|]. split; [reflexivity|].
  destruct (X12_histories_only_grow (runs (new_session [] []) (take 3 visit))
              (drop 3 visit)) as (Hchat & _).
  exact Hchat.
Defined.

Lemma X13_chat_history_is_conversation_witness :
  ∃ m, chat_history (runs (new_session [] []) visit) !! 1%nat = Some m
       ∧ role m = "assistant"
       ∧ (asterisk ∉ content m) ∧ (line_feed ∉ content m).
Proof.
  assert (Hm : chat_history (runs (new_session [] []) visit) !! 1%nat
               = Some (mkMessage "assistant"
                         (codes "<b>Fees</b><br>"
                          ++ bullet :: codes " tuition"))) by reflexivity.
  eexists. split; [exact Hm|]. split; [reflexivity|].
  destruct (X13_chat_history_is_conversation [] [] visit 1%nat _ Hm)
    as [_ Hreply].
  destruct (Hreply eq_refl) as (Hstar & Hfeed & _).
  split; [exact Hstar|exact Hfeed].
Defined.

Lemma X14_larger_rank_fewer_rows_witness :
  ∃ res2,
    college_predictor catalog "male" "SFS" "OBC" 4300
    = Ret (StDataframe res2)
    ∧ rows res2 `sublist_of` rows table_4200.
Proof.
  apply (X14_larger_rank_fewer_rows catalog "male" "SFS" "OBC" 4200 4300
           table_4200); [lia|reflexivity].
Defined.

Lemma X15_gender_only_male_or_not_witness :
  college_predictor catalog "Female" "SFS" "OBC" 4200
  = college_predictor catalog "female" "SFS" "OBC" 4200.
Proof.
  destruct (X15_gender_only_male_or_not catalog "SFS" "OBC" 4200)
    as [_ Hother].
  apply Hother. discriminate.
Defined.

(** The specification's name of the category is not a key of the dict. *)
Lemma X16_unknown_category_witness :
  college_predictor catalog "male" "SFS" "General" 4200
  = Ret (StError "Category column not found").
Proof.
  destruct (X16_unknown_category catalog "male" "SFS" "General" 4200)
    as [_ Hshown].
  - apply (bool_decide_unpack _). vm_compute. exact I.
  - apply (bool_decide_unpack _). vm_compute. exact I.
  - exact Hshown.
Defined.

(** Group "GAS " is on offer; its one line has the cutoff 9000. *)
Lemma X17_no_qualifying_line_empty_table_witness :
  college_predictor catalog "male" "GAS " "OBC" 9001
  = Ret (StDataframe {| columns := ["Institute"; "Branch"; "Cutoff"];
                        rows := [] |}).
Proof.
  apply (X17_no_qualifying_line_empty_table catalog "male" "GAS " "OBC" 9001
           "mobc" 2%nat 4%nat); try reflexivity;
    try (apply (bool_decide_unpack _); vm_compute; exact I).
  intros k r Hr.
  destruct k as [|[|[|[|k]]]]; cbn in Hr; try discriminate;
    injection Hr as <-; vm_compute; intros Hgroup;
    first [discriminate | split; reflexivity].
Defined.

Lemma X18_missing_columns_raise_witness :
  college_predictor headless "male" "SFS" "Gen" 100
  = Raise (KeyError "Institute").
Proof.
  destruct (X18_missing_columns_raise headless "male" "SFS" "Gen" 100)
    as [_ Hselect].
  destruct (Hselect "gen" eq_refl) as [Hinst _].
  - apply (bool_decide_unpack _). vm_compute. exact I.
  - apply (bool_decide_unpack _). vm_compute. exact I.
  - apply Hinst. apply (bool_decide_unpack _). vm_compute. exact I.
Defined.

Lemma X19_padded_group_label_witness :
  college_predictor catalog "male" "  SFS " "OBC" 4200
  = college_predictor catalog "male" "SFS" "OBC" 4200.
Proof.
  apply (X19_padded_group_label catalog "male" "SFS" "OBC" "  " " " 4200);
    reflexivity.
Defined.

Lemma X20_group_options_witness :
  group_options (load_data catalog) = Ret [" SFS"; "GAS "; "SFS"; "sfs"]
  ∧ NoDup [" SFS"; "GAS "; "SFS"; "sfs"].
Proof.
  assert (Hrun : group_options (load_data catalog)
                 = Ret [" SFS"; "GAS "; "SFS"; "sfs"]) by reflexivity.
  split; [exact Hrun|].
  destruct (X20_group_options catalog _ Hrun) as (g & _ & _ & Hnodup & _).
  exact Hnodup.
Defined.

Lemma X21_required_and_default_secrets_witness :
  ∃ cfg, load_secrets secrets = Ret cfg
         ∧ DB_NAME cfg = "REAP" ∧ USERS_COLL cfg = "users"
         ∧ MAIL_SENDER cfg = "helpdesk@example.org".
Proof.
  destruct (X21_required_and_default_secrets secrets) as (Hiff & _ & Hcfg).
  destruct (proj2 Hiff) as [cfg Hload].
  - split_and!; eexists; reflexivity.
  - exists cfg. split; [exact Hload|].
    destruct (Hcfg cfg Hload)
      as (_ & _ & Huser & _ & Hdb & Hcoll & _ & _ & Hsender).
    split_and!.
    + rewrite Hdb. reflexivity.
    + rewrite Hcoll. reflexivity.
    + assert (Hname : MAIL_USERNAME cfg = "helpdesk@example.org")
        by (change (secrets !! "MAIL_USERNAME")
              with (Some "helpdesk@example.org") in Huser; congruence).
      rewrite Hsender, Hname. reflexivity.
Defined.

End Scenarios.
